(** * netmaker: the network controller and the key-value database wrapper

    A shallow embedding of [controllers/networkHttpController.go] (package
    [controller]) and of the rqlite wrapper (package [database]), followed by
    the properties of the authorization gate, the merge-update, the deletion
    guard, access-key issuance, the record fetch and the listing filter. *)

From Stdlib Require Import ZArith List Ascii String Lia.
From stdpp Require Import base gmap strings list.
Import ListNotations.

Local Open Scope Z_scope.
Local Open Scope string_scope.
Local Open Scope list_scope.

(** ** Go values *)

(** A Go [error] is identified with its message; the nil error is [None]. *)
Definition error : Type := string.

Definition errors_New (text : string) : option error := Some text.

(** [strings.Split(s, sep)] for a one-byte separator: the fields between the
    occurrences of [sep], one more than there are occurrences. *)
Fixpoint strings_Split (s : string) (sep : ascii) : list string :=
  match s with
  | EmptyString => [EmptyString]
  | String c rest =>
      if Ascii.eqb c sep then EmptyString :: strings_Split rest sep
      else match strings_Split rest sep with
           | [] => [String c EmptyString]
           | field :: fields => String c field :: fields
           end
  end.

(** The byte [sep] does not occur in [s]. *)
Fixpoint free_of (sep : ascii) (s : string) : bool :=
  match s with
  | EmptyString => true
  | String c rest => negb (Ascii.eqb c sep) && free_of sep rest
  end.

Definition space : ascii := " "%char.

(** ** Package [models] *)

Module models.

(** Modelled from the spec: the declaration of [models.AccessKey] is not among
    the sources; these are the fields the controller reads and writes (name,
    secret value, opaque access string, uses remaining). *)
Record AccessKey : Type := mkAccessKey {
  Name : string;
  Value : string;
  AccessString : string;
  Uses : Z
}.

Definition AccessKey_zero : AccessKey := mkAccessKey "" "" "" 0.

(** Modelled from the spec: the declaration of [models.Network] is not among
    the sources; the fields are those the controller reads, writes and names
    in its [$set] documents. Optional booleans ([*bool]) are [option bool]. *)
Record Network : Type := mkNetwork {
  NetID : string;
  AddressRange : string;
  AddressRange6 : string;
  DisplayName : string;
  DefaultListenPort : Z;
  DefaultPostUp : string;
  DefaultPostDown : string;
  DefaultKeepalive : Z;
  KeyUpdateTimeStamp : Z;
  DefaultSaveConfig : option bool;
  DefaultInterface : string;
  NodesLastModified : Z;
  NetworkLastModified : Z;
  AllowManualSignUp : option bool;
  DefaultCheckInInterval : Z;
  LocalRange : string;
  IsLocal : option bool;
  IsDualStack : option bool;
  NodeLimit : Z;
  AccessKeys : list AccessKey
}.

Definition Network_zero : Network :=
  mkNetwork "" "" "" "" 0 "" "" 0 0 None "" 0 0 None 0 "" None None 0 [].

(** Field assignments [network.F = v]. *)
Definition with_AddressRange (v : string) (n : Network) : Network :=
  let '(mkNetwork id ar ar6 dn lp pu pd ka kt sc di nm wm ms ci lr il ds nl ak) := n in
  mkNetwork id v ar6 dn lp pu pd ka kt sc di nm wm ms ci lr il ds nl ak.
Definition with_AddressRange6 (v : string) (n : Network) : Network :=
  let '(mkNetwork id ar ar6 dn lp pu pd ka kt sc di nm wm ms ci lr il ds nl ak) := n in
  mkNetwork id ar v dn lp pu pd ka kt sc di nm wm ms ci lr il ds nl ak.
Definition with_DisplayName (v : string) (n : Network) : Network :=
  let '(mkNetwork id ar ar6 dn lp pu pd ka kt sc di nm wm ms ci lr il ds nl ak) := n in
  mkNetwork id ar ar6 v lp pu pd ka kt sc di nm wm ms ci lr il ds nl ak.
Definition with_DefaultListenPort (v : Z) (n : Network) : Network :=
  let '(mkNetwork id ar ar6 dn lp pu pd ka kt sc di nm wm ms ci lr il ds nl ak) := n in
  mkNetwork id ar ar6 dn v pu pd ka kt sc di nm wm ms ci lr il ds nl ak.
Definition with_DefaultPostUp (v : string) (n : Network) : Network :=
  let '(mkNetwork id ar ar6 dn lp pu pd ka kt sc di nm wm ms ci lr il ds nl ak) := n in
  mkNetwork id ar ar6 dn lp v pd ka kt sc di nm wm ms ci lr il ds nl ak.
Definition with_DefaultPostDown (v : string) (n : Network) : Network :=
  let '(mkNetwork id ar ar6 dn lp pu pd ka kt sc di nm wm ms ci lr il ds nl ak) := n in
  mkNetwork id ar ar6 dn lp pu v ka kt sc di nm wm ms ci lr il ds nl ak.
Definition with_DefaultKeepalive (v : Z) (n : Network) : Network :=
  let '(mkNetwork id ar ar6 dn lp pu pd ka kt sc di nm wm ms ci lr il ds nl ak) := n in
  mkNetwork id ar ar6 dn lp pu pd v kt sc di nm wm ms ci lr il ds nl ak.
Definition with_DefaultSaveConfig (v : option bool) (n : Network) : Network :=
  let '(mkNetwork id ar ar6 dn lp pu pd ka kt sc di nm wm ms ci lr il ds nl ak) := n in
  mkNetwork id ar ar6 dn lp pu pd ka kt v di nm wm ms ci lr il ds nl ak.
Definition with_DefaultInterface (v : string) (n : Network) : Network :=
  let '(mkNetwork id ar ar6 dn lp pu pd ka kt sc di nm wm ms ci lr il ds nl ak) := n in
  mkNetwork id ar ar6 dn lp pu pd ka kt sc v nm wm ms ci lr il ds nl ak.
Definition with_NodesLastModified (v : Z) (n : Network) : Network :=
  let '(mkNetwork id ar ar6 dn lp pu pd ka kt sc di nm wm ms ci lr il ds nl ak) := n in
  mkNetwork id ar ar6 dn lp pu pd ka kt sc di v wm ms ci lr il ds nl ak.
Definition with_NetworkLastModified (v : Z) (n : Network) : Network :=
  let '(mkNetwork id ar ar6 dn lp pu pd ka kt sc di nm wm ms ci lr il ds nl ak) := n in
  mkNetwork id ar ar6 dn lp pu pd ka kt sc di nm v ms ci lr il ds nl ak.
Definition with_AllowManualSignUp (v : option bool) (n : Network) : Network :=
  let '(mkNetwork id ar ar6 dn lp pu pd ka kt sc di nm wm ms ci lr il ds nl ak) := n in
  mkNetwork id ar ar6 dn lp pu pd ka kt sc di nm wm v ci lr il ds nl ak.
Definition with_DefaultCheckInInterval (v : Z) (n : Network) : Network :=
  let '(mkNetwork id ar ar6 dn lp pu pd ka kt sc di nm wm ms ci lr il ds nl ak) := n in
  mkNetwork id ar ar6 dn lp pu pd ka kt sc di nm wm ms v lr il ds nl ak.
Definition with_LocalRange (v : string) (n : Network) : Network :=
  let '(mkNetwork id ar ar6 dn lp pu pd ka kt sc di nm wm ms ci lr il ds nl ak) := n in
  mkNetwork id ar ar6 dn lp pu pd ka kt sc di nm wm ms ci v il ds nl ak.
Definition with_IsLocal (v : option bool) (n : Network) : Network :=
  let '(mkNetwork id ar ar6 dn lp pu pd ka kt sc di nm wm ms ci lr il ds nl ak) := n in
  mkNetwork id ar ar6 dn lp pu pd ka kt sc di nm wm ms ci lr v ds nl ak.
Definition with_IsDualStack (v : option bool) (n : Network) : Network :=
  let '(mkNetwork id ar ar6 dn lp pu pd ka kt sc di nm wm ms ci lr il ds nl ak) := n in
  mkNetwork id ar ar6 dn lp pu pd ka kt sc di nm wm ms ci lr il v nl ak.
Definition with_NodeLimit (v : Z) (n : Network) : Network :=
  let '(mkNetwork id ar ar6 dn lp pu pd ka kt sc di nm wm ms ci lr il ds nl ak) := n in
  mkNetwork id ar ar6 dn lp pu pd ka kt sc di nm wm ms ci lr il ds v ak.
Definition with_AccessKeys (v : list AccessKey) (n : Network) : Network :=
  let '(mkNetwork id ar ar6 dn lp pu pd ka kt sc di nm wm ms ci lr il ds nl ak) := n in
  mkNetwork id ar ar6 dn lp pu pd ka kt sc di nm wm ms ci lr il ds nl v.

(** Modelled from the spec: the declaration of [models.NetworkUpdate] is not
    among the sources; the fields are those [UpdateNetwork], [updateNetwork]
    and [updateNetworkNodeLimit] read from the decoded patch. A field absent
    from the request body decodes to the zero value of its type. *)
Module NetworkUpdate.
Record t : Type := mk {
  NetID : string;
  AddressRange : string;
  AddressRange6 : string;
  DisplayName : string;
  DefaultListenPort : Z;
  DefaultPostUp : string;
  DefaultPostDown : string;
  DefaultKeepalive : Z;
  DefaultInterface : string;
  AllowManualSignUp : option bool;
  DefaultCheckInInterval : Z;
  LocalRange : string;
  IsLocal : option bool;
  IsDualStack : option bool;
  NodeLimit : Z
}.

(** Every field but [NetID] is absent from the patch, or at its zero value. *)
Definition unset (p : t) : Prop :=
  AddressRange p = "" /\ AddressRange6 p = "" /\ DisplayName p = ""
  /\ DefaultListenPort p = 0 /\ DefaultPostUp p = "" /\ DefaultPostDown p = ""
  /\ DefaultKeepalive p = 0 /\ DefaultInterface p = ""
  /\ AllowManualSignUp p = None /\ DefaultCheckInInterval p = 0
  /\ LocalRange p = "" /\ IsLocal p = None /\ IsDualStack p = None
  /\ NodeLimit p = 0.
End NetworkUpdate.

(** Modelled from the spec: the declarations of [models.ServerConfig],
    [models.WG] and [models.AccessToken] are not among the sources; the fields
    are those [CreateAccessKey] fills before serializing the token. *)
Module ServerConfig.
Record t : Type := mk {
  CoreDNSAddr : string;
  APIConnString : string;
  APIHost : string;
  APIPort : string;
  GRPCConnString : string;
  GRPCHost : string;
  GRPCPort : string;
  GRPCSSL : string
}.
End ServerConfig.

Module WG.
Record t : Type := mk {
  GRPCWireGuard : string;
  GRPCWGAddress : string;
  GRPCWGPort : string;
  GRPCWGPubKey : string;
  GRPCWGEndpoint : string
}.
End WG.

Module ClientConfig.
Record t : Type := mk {
  Network : string;
  Key : string;
  LocalRange : string
}.
End ClientConfig.

Module AccessToken.
Record t : Type := mk {
  ServerConfig : ServerConfig.t;
  WG : WG.t;
  ClientConfig : ClientConfig.t
}.
End AccessToken.

End models.

(** ** Package [database] *)

Module database.

(** What [Database.QueryOne] answers for [SELECT * FROM table ORDER BY key]:
    the rows of the table as the cursor yields them, or the driver's error. *)
Definition QueryResult : Type := list (string * string) * option error.

(** The loop [for row.Next() { row.Scan(&key, &value); records[key] = value }]. *)
Fixpoint scan_rows (rows : list (string * string)) (records : gmap string string)
  : gmap string string :=
  match rows with
  | [] => records
  | (key, value) :: rest => scan_rows rest (<[key := value]> records)
  end.

Definition FetchRecords (query : QueryResult) : gmap string string * option error :=
  match query with
  | (_, Some err) => (∅, Some err)
  | (rows, None) => (scan_rows rows ∅, None)
  end.

(** Indexing a Go map at a key it does not hold yields the zero value. *)
Definition map_index (records : gmap string string) (key : string) : string :=
  default "" (records !! key).

Definition FetchRecord (query : QueryResult) (key : string) : string * option error :=
  match FetchRecords query with
  | (_, Some err) => ("", Some err)
  | (results, None) => (map_index results key, None)
  end.

End database.

(** ** The document store and the world *)

Import models.

Module bson.

(** One element of the document under ["$set"]: a key of the network document
    with the value assigned to it. *)
Inductive E : Type :=
| addressrange (v : string)
| addressrange6 (v : string)
| displayname (v : string)
| defaultlistenport (v : Z)
| defaultpostup (v : string)
| defaultpostdown (v : string)
| defaultkeepalive (v : Z)
| defaultsaveconfig (v : option bool)
| defaultinterface (v : string)
| nodeslastmodified (v : Z)
| networklastmodified (v : Z)
| allowmanualsignup (v : option bool)
| localrange (v : string)
| islocal (v : option bool)
| isdualstack (v : option bool)
| checkininterval (v : Z)
| nodelimit (v : Z)
| accesskeys (v : list AccessKey).

(** The ordered document [bson.D]. *)
Definition D : Type := list E.

Definition set_field (e : E) : Network -> Network :=
  match e with
  | addressrange v => with_AddressRange v
  | addressrange6 v => with_AddressRange6 v
  | displayname v => with_DisplayName v
  | defaultlistenport v => with_DefaultListenPort v
  | defaultpostup v => with_DefaultPostUp v
  | defaultpostdown v => with_DefaultPostDown v
  | defaultkeepalive v => with_DefaultKeepalive v
  | defaultsaveconfig v => with_DefaultSaveConfig v
  | defaultinterface v => with_DefaultInterface v
  | nodeslastmodified v => with_NodesLastModified v
  | networklastmodified v => with_NetworkLastModified v
  | allowmanualsignup v => with_AllowManualSignUp v
  | localrange v => with_LocalRange v
  | islocal v => with_IsLocal v
  | isdualstack v => with_IsDualStack v
  | checkininterval v => with_DefaultCheckInInterval v
  | nodelimit v => with_NodeLimit v
  | accesskeys v => with_AccessKeys v
  end.

(** The effect of [{"$set": update}] on one document. *)
Definition set (update : D) (doc : Network) : Network :=
  fold_left (fun d e => set_field e d) update doc.

End bson.

(** Every call that leaves the controller: to the packages [functions] and
    [servercfg] and to the [networks] collection of the document store. *)
Inductive Call : Type :=
| call_NetworkExists (netname : string)
| call_VerifyUserToken (authToken : string)
| call_GetParentNetwork (netname : string)
| call_ListNetworks
| call_GetNetworkNodeNumber (network : string)
| call_UpdateNetworkNodeAddresses (netid : string)
| call_UpdateNetworkLocalAddresses (netid : string)
| call_GenKeyName
| call_GenKey
| call_PrintUserLog (user message : string) (loglevel : Z)
| call_GetMasterKey
| call_GetServerConfig
| call_GetWGConfig
| call_FindOne (netid : string)
| call_FindOneAndUpdate (netid : string) (update : bson.D)
| call_DeleteOne (netid : string).

(** The collection [netmaker.networks], a document per network, and the
    calls made so far, oldest first. *)
Record World : Type := mkWorld {
  networks : list Network;
  calls : list Call
}.

(** A persistence call: one that writes to the collection. *)
Definition is_persistence (c : Call) : bool :=
  match c with
  | call_FindOneAndUpdate _ _ | call_DeleteOne _ => true
  | _ => false
  end.

Definition is_DeleteOne (c : Call) : bool :=
  match c with call_DeleteOne _ => true | _ => false end.

Definition is_UpdateNetworkNodeAddresses (c : Call) : bool :=
  match c with call_UpdateNetworkNodeAddresses _ => true | _ => false end.

Definition is_credential_check (c : Call) : bool :=
  match c with call_GetMasterKey | call_VerifyUserToken _ => true | _ => false end.

(** The calls made between world [w] and a later world [w']. *)
Definition calls_since (w w' : World) : list Call :=
  drop (length (calls w)) (calls w').

(** What the controller cannot see into. The packages [functions] and
    [servercfg], the clock, the JSON, base64 and validator libraries and the
    faults of the store's driver are parameters; the answers of [functions]
    may depend on the collection. *)
Record Env : Type := mkEnv {
  functions_NetworkExists : list Network -> string -> bool * option error;
  functions_VerifyUserToken :
    list Network -> string -> string * list string * bool * option error;
  functions_GetParentNetwork : list Network -> string -> Network * option error;
  functions_ListNetworks : list Network -> list Network * option error;
  functions_GetNetworkNodeNumber : list Network -> string -> Z * option error;
  functions_UpdateNetworkNodeAddresses : list Network -> string -> option error;
  functions_UpdateNetworkLocalAddresses : list Network -> string -> option error;
  functions_GenKeyName : list Network -> string;
  functions_GenKey : list Network -> string;
  servercfg_GetMasterKey : string;
  servercfg_GetServerConfig : ServerConfig.t;
  servercfg_GetWGConfig : WG.t;
  time_Now_Unix : Z;
  json_Marshal : AccessToken.t -> string * option error;
  json_Unmarshal : string -> list string * option error;
  base64_EncodeToString : string -> string;
  validator_Struct : AccessKey -> option error;
  (** the driver's failure (timeout, connection) of a round trip, if any *)
  mongo_fault : Call -> list Network -> option error
}.

(** ** The monad of the controller: state passing over the world *)

Definition M (A : Type) : Type := World -> A * World.

Definition ret {A : Type} (a : A) : M A := fun w => (a, w).

Definition bind {A B : Type} (c : M A) (k : A -> M B) : M B :=
  fun w => let (a, w') := c w in k a w'.

Declare Scope go_scope.
Delimit Scope go_scope with go.
Notation "'do' x <- c ; k" := (bind c (fun x => k))
  (at level 10, x name, c at level 100, k at level 200) : go_scope.
Notation "'do' ' p <- c ; k" := (bind c (fun x => match x with p => k end))
  (at level 10, p pattern, c at level 100, k at level 200) : go_scope.
Notation "'run' c ; k" := (bind c (fun _ => k))
  (at level 10, c at level 100, k at level 200) : go_scope.

Definition record_call (c : Call) : M unit :=
  fun w => (tt, mkWorld (networks w) (calls w ++ [c])).

(** A call that reads: it is recorded and answered from the collection. *)
Definition ask {A : Type} (c : Call) (answer : list Network -> A) : M A :=
  fun w => (answer (networks w), mkWorld (networks w) (calls w ++ [c])).

Definition put_networks (docs : list Network) : M unit :=
  fun w => (tt, mkWorld docs (calls w)).

Definition get_networks : M (list Network) := fun w => (networks w, w).

Module mongo.

Definition ErrNoDocuments : error := "mongo: no documents in result".

Record DeleteResult : Type := mkDeleteResult { DeletedCount : Z }.

Definition matches (netid : string) (doc : Network) : bool :=
  String.eqb (NetID doc) netid.

(** The filter [{"netid": netid}] selects the first matching document. *)
Definition first_match (netid : string) (docs : list Network) : option Network :=
  List.find (matches netid) docs.

Fixpoint update_first (netid : string) (f : Network -> Network)
  (docs : list Network) : list Network :=
  match docs with
  | [] => []
  | doc :: rest =>
      if matches netid doc then f doc :: rest
      else doc :: update_first netid f rest
  end.

Fixpoint delete_first (netid : string) (docs : list Network) : list Network :=
  match docs with
  | [] => []
  | doc :: rest =>
      if matches netid doc then rest else doc :: delete_first netid rest
  end.

Section Collection.
Context (env : Env).
Local Open Scope go_scope.

(** [collection.FindOne(ctx, filter, ...).Decode(&network)]: the new value of
    [network] and the error. A stored document holds every field, so a
    successful decode replaces [network] by it. *)
Definition FindOne_Decode (netid : string) (network : Network)
  : M (Network * option error) :=
  do fault <- ask (call_FindOne netid) (mongo_fault env (call_FindOne netid));
  do docs <- get_networks;
  match fault with
  | Some err => ret (network, Some err)
  | None =>
      match first_match netid docs with
      | None => ret (network, Some ErrNoDocuments)
      | Some doc => ret (doc, None)
      end
  end.

(** [collection.FindOneAndUpdate(ctx, filter, update).Decode(&network)]: the
    first matching document is updated in place and the document as it was
    before the update is decoded into [network]. *)
Definition FindOneAndUpdate_Decode (netid : string) (update : bson.D)
  (network : Network) : M (Network * option error) :=
  do fault <- ask (call_FindOneAndUpdate netid update)
                (mongo_fault env (call_FindOneAndUpdate netid update));
  do docs <- get_networks;
  match fault with
  | Some err => ret (network, Some err)
  | None =>
      match first_match netid docs with
      | None => ret (network, Some ErrNoDocuments)
      | Some doc =>
          run put_networks (update_first netid (bson.set update) docs);
          ret (doc, None)
      end
  end.

(** [collection.DeleteOne(ctx, filter)]. *)
Definition DeleteOne (netid : string) : M (DeleteResult * option error) :=
  do fault <- ask (call_DeleteOne netid) (mongo_fault env (call_DeleteOne netid));
  do docs <- get_networks;
  match fault with
  | Some err => ret (mkDeleteResult 0, Some err)
  | None =>
      match first_match netid docs with
      | None => ret (mkDeleteResult 0, None)
      | Some _ =>
          run put_networks (delete_first netid docs);
          ret (mkDeleteResult 1, None)
      end
  end.

End Collection.
End mongo.

(** ** Package [controller] *)

Module controller.

Definition ALL_NETWORK_ACCESS : string := "THIS_USER_HAS_ALL".
Definition NO_NETWORKS_PRESENT : string := "THIS_USER_HAS_NONE".

(** What a handler writes to its [http.ResponseWriter]: status 200 with an
    encoded body, the error response built by [formatError(err, errtype)],
    or nothing, when the handler panics. *)
Inductive Response (A : Type) : Type :=
| StatusOK (body : A)
| ErrorResponse (errtype : string) (err : error)
| Panic.
Arguments StatusOK {A} body.
Arguments ErrorResponse {A} errtype err.
Arguments Panic {A}.

(** The loop of [RemoveComms]: [ind] is the index of the head of [networks],
    [index] the last index seen so far whose network is ["comms"]. *)
Fixpoint RemoveComms_loop (networks : list Network) (ind index : Z) : Z :=
  match networks with
  | [] => index
  | net :: rest =>
      RemoveComms_loop rest (ind + 1)
        (if String.eqb (NetID net) "comms" then ind else index)
  end.

Definition RemoveComms (networks : list Network) : list Network :=
  let index := RemoveComms_loop networks 0 100000001 in
  if (index =? 100000001)%Z then networks
  else
    let returnable := [] in
    let returnable := returnable ++ take (Z.to_nat index) networks in
    returnable ++ drop (Z.to_nat (index + 1)) networks.

(** The locals of [UpdateNetwork] during the merge. *)
Record Merge : Type := mkMerge {
  network : Network;
  haschange : bool;
  hasrangeupdate : bool;
  haslocalrangeupdate : bool
}.

Definition assign (f : Network -> Network) (m : Merge) : Merge :=
  mkMerge (f (network m)) (haschange m) (hasrangeupdate m) (haslocalrangeupdate m).
Definition set_haschange (m : Merge) : Merge :=
  mkMerge (network m) true (hasrangeupdate m) (haslocalrangeupdate m).
Definition set_hasrangeupdate (m : Merge) : Merge :=
  mkMerge (network m) (haschange m) true (haslocalrangeupdate m).
Definition set_haslocalrangeupdate (m : Merge) : Merge :=
  mkMerge (network m) (haschange m) (hasrangeupdate m) true.

Definition nonempty (s : string) : bool := negb (String.eqb s "").
Definition nonzero (z : Z) : bool := negb (z =? 0)%Z.
Definition nonnil {A : Type} (p : option A) : bool :=
  match p with Some _ => true | None => false end.

(** A Go [if cond { body }] over the locals of the merge. *)
Definition if_then (cond : bool) (body : Merge -> Merge) (m : Merge) : Merge :=
  if cond then body m else m.

(** The sequence of guarded assignments of [UpdateNetwork], from
    [haschange := false] to the assignment of [AllowManualSignUp]. *)
Definition UpdateNetwork_merge (networkChange : NetworkUpdate.t)
  (network : Network) : Merge :=
  let m := mkMerge network false false false in
  let m := if_then (nonempty (NetworkUpdate.AddressRange networkChange))
             (fun m =>
              assign (with_AddressRange (NetworkUpdate.AddressRange networkChange))
                (set_hasrangeupdate (set_haschange m))) m in
  let m := if_then (nonempty (NetworkUpdate.LocalRange networkChange))
             (fun m =>
              assign (with_LocalRange (NetworkUpdate.LocalRange networkChange))
                (set_haslocalrangeupdate (set_haschange m))) m in
  let m := if_then (nonnil (NetworkUpdate.IsLocal networkChange))
             (fun m =>
              assign (with_IsLocal (NetworkUpdate.IsLocal networkChange)) m) m in
  let m := if_then (nonnil (NetworkUpdate.IsDualStack networkChange))
             (fun m =>
              assign (with_IsDualStack (NetworkUpdate.IsDualStack networkChange)) m) m in
  let m := if_then (nonzero (NetworkUpdate.DefaultListenPort networkChange))
             (fun m =>
              set_haschange
                (assign (with_DefaultListenPort (NetworkUpdate.DefaultListenPort networkChange)) m)) m in
  let m := if_then (nonempty (NetworkUpdate.DefaultPostDown networkChange))
             (fun m =>
              set_haschange
                (assign (with_DefaultPostDown (NetworkUpdate.DefaultPostDown networkChange)) m)) m in
  let m := if_then (nonempty (NetworkUpdate.DefaultInterface networkChange))
             (fun m =>
              set_haschange
                (assign (with_DefaultInterface (NetworkUpdate.DefaultInterface networkChange)) m)) m in
  let m := if_then (nonempty (NetworkUpdate.DefaultPostUp networkChange))
             (fun m =>
              set_haschange
                (assign (with_DefaultPostUp (NetworkUpdate.DefaultPostUp networkChange)) m)) m in
  let m := if_then (nonzero (NetworkUpdate.DefaultKeepalive networkChange))
             (fun m =>
              set_haschange
                (assign (with_DefaultKeepalive (NetworkUpdate.DefaultKeepalive networkChange)) m)) m in
  let m := if_then (nonempty (NetworkUpdate.DisplayName networkChange))
             (fun m =>
              set_haschange
                (assign (with_DisplayName (NetworkUpdate.DisplayName networkChange)) m)) m in
  let m := if_then (nonzero (NetworkUpdate.DefaultCheckInInterval networkChange))
             (fun m =>
              set_haschange
                (assign (with_DefaultCheckInInterval (NetworkUpdate.DefaultCheckInInterval networkChange)) m)) m in
  let m := if_then (nonnil (NetworkUpdate.AllowManualSignUp networkChange))
             (fun m =>
              set_haschange
                (assign (with_AllowManualSignUp (NetworkUpdate.AllowManualSignUp networkChange)) m)) m in
  m.

(** The document under ["$set"] that [UpdateNetwork] prepares. *)
Definition UpdateNetwork_update (network : Network) : bson.D :=
  [ bson.addressrange (AddressRange network);
    bson.addressrange6 (AddressRange6 network);
    bson.displayname (DisplayName network);
    bson.defaultlistenport (DefaultListenPort network);
    bson.defaultpostup (DefaultPostUp network);
    bson.defaultpostdown (DefaultPostDown network);
    bson.defaultkeepalive (DefaultKeepalive network);
    bson.defaultsaveconfig (DefaultSaveConfig network);
    bson.defaultinterface (DefaultInterface network);
    bson.nodeslastmodified (NodesLastModified network);
    bson.networklastmodified (NetworkLastModified network);
    bson.allowmanualsignup (AllowManualSignUp network);
    bson.localrange (LocalRange network);
    bson.islocal (IsLocal network);
    bson.isdualstack (IsDualStack network);
    bson.checkininterval (DefaultCheckInInterval network) ].

Section Controller.
Context (env : Env).
Local Open Scope go_scope.

Definition authenticateMaster (tokenString : string) : M bool :=
  do key <- ask call_GetMasterKey (fun _ => servercfg_GetMasterKey env);
  if String.eqb tokenString key then ret true else ret false.

(** The tail of [SecurityCheck]: the sentinel for an empty set, and the
    successful return. *)
Definition SecurityCheck_return (userNetworks : list string) (username : string)
  : M (option error * list string * string) :=
  let userNetworks :=
    if (Z.of_nat (length userNetworks) =? 0)%Z
    then userNetworks ++ [NO_NETWORKS_PRESENT] else userNetworks in
  ret (None, userNetworks, username).

Definition SecurityCheck (reqAdmin : bool) (netname token : string)
  : M (option error * list string * string) :=
  do '(networkexists, err) <-
     ask (call_NetworkExists netname)
         (fun docs => functions_NetworkExists env docs netname);
  match err with
  | Some e => ret (Some e, [], "")
  | None =>
      if negb (String.eqb netname "") && negb networkexists then
        ret (errors_New "This network does not exist", [], "")
      else
        let tokenSplit := strings_Split token space in
        let '(hasBearer, authToken) :=
          if (Z.of_nat (length tokenSplit) <? 2)%Z then (false, "")
          else (true, nth 1%nat tokenSplit "") in
        let userNetworks := [] in
        do isMasterAuthenticated <- authenticateMaster authToken;
        let username := "" in
        if negb hasBearer || negb isMasterAuthenticated then
          do '(userName, networks, isadmin, err) <-
             ask (call_VerifyUserToken authToken)
                 (fun docs => functions_VerifyUserToken env docs authToken);
          let username := userName in
          match err with
          | Some _ => ret (errors_New "Error verifying user token", [], username)
          | None =>
              if negb isadmin && reqAdmin then
                ret (errors_New "You are unauthorized to access this endpoint",
                     [], username)
              else
                let userNetworks := networks in
                let userNetworks :=
                  if isadmin then [ALL_NETWORK_ACCESS] else userNetworks in
                SecurityCheck_return userNetworks username
          end
        else
          let userNetworks :=
            if isMasterAuthenticated then [ALL_NETWORK_ACCESS] else userNetworks in
          SecurityCheck_return userNetworks username
  end.

Definition PrintUserLog (user message : string) (loglevel : Z) : M unit :=
  ask (call_PrintUserLog user message loglevel) (fun _ => tt).

Definition GetParentNetwork (netname : string) : M (Network * option error) :=
  ask (call_GetParentNetwork netname)
      (fun docs => functions_GetParentNetwork env docs netname).

(** The loop of [getNetworks] over the caller's network names. *)
Fixpoint getNetworks_loop (networksSlice : list string) (allnetworks : list Network)
  : M (list Network) :=
  match networksSlice with
  | [] => ret allnetworks
  | network :: rest =>
      do '(netObject, parentErr) <- GetParentNetwork network;
      getNetworks_loop rest
        (match parentErr with
         | None => allnetworks ++ [netObject]
         | Some _ => allnetworks
         end)
  end.

(** [getNetworks]: [user] and [headerNetworks] are the request headers
    ["user"] and ["networks"] that [securityCheck] has set. *)
Definition getNetworks (user headerNetworks : string) : M (Response (list Network)) :=
  let '(networksSlice, marshalErr) := json_Unmarshal env headerNetworks in
  match marshalErr with
  | Some e => ret (ErrorResponse "internal" e)
  | None =>
      match networksSlice with
      | [] => ret Panic
      | first :: _ =>
          do '(allnetworks, err) <-
             (if String.eqb first ALL_NETWORK_ACCESS
              then ask call_ListNetworks (functions_ListNetworks env)
              else do all <- getNetworks_loop networksSlice []; ret (all, None));
          match err with
          | Some e => ret (ErrorResponse "internal" e)
          | None =>
              let networks := RemoveComms allnetworks in
              run PrintUserLog user "fetched networks." 2;
              ret (StatusOK networks)
          end
      end
  end.

Definition GetKeys (net : string) : M (list AccessKey * option error) :=
  do '(network, err) <- mongo.FindOne_Decode env net Network_zero;
  match err with
  | Some e => ret ([], Some e)
  | None => ret (AccessKeys network, None)
  end.

(** [updateNetworkNodeLimit]: [netname] is the route parameter and
    [networkChange] the decoded request body (a decoding error is dropped). *)
Definition updateNetworkNodeLimit (user netname : string)
  (networkChange : NetworkUpdate.t) : M (Response Network) :=
  do '(network, err) <- GetParentNetwork netname;
  match err with
  | Some e => ret (ErrorResponse "internal" e)
  | None =>
      do '(network, err) <-
         (if nonzero (NetworkUpdate.NodeLimit networkChange) then
            let update := [bson.nodelimit (NetworkUpdate.NodeLimit networkChange)] in
            mongo.FindOneAndUpdate_Decode env (NetID network) update network
          else ret (network, None));
      match err with
      | Some e => ret (ErrorResponse "badrequest" e)
      | None =>
          run PrintUserLog user
                (String.append "updated network node limit on, " netname) 1;
          ret (StatusOK network)
      end
  end.

(** [network.SetNetworkLastModified()]. *)
Definition SetNetworkLastModified (network : Network) : Network :=
  with_NetworkLastModified (time_Now_Unix env) network.

(** The record [UpdateNetwork] holds when it prepares the update: the merge,
    stamped when [haschange] is set. *)
Definition UpdateNetwork_merged (networkChange : NetworkUpdate.t)
  (network : Network) : Network :=
  let m := UpdateNetwork_merge networkChange network in
  if haschange m then SetNetworkLastModified (controller.network m)
  else controller.network m.

Definition UpdateNetwork (networkChange : NetworkUpdate.t) (network : Network)
  : M (Network * option error) :=
  if negb (String.eqb (NetworkUpdate.NetID networkChange) (NetID network)) then
    ret (Network_zero, errors_New "NetID is not editable")
  else
    let m := UpdateNetwork_merge networkChange network in
    let network := UpdateNetwork_merged networkChange network in
    let update := UpdateNetwork_update network in
    do '(network, err) <-
       mongo.FindOneAndUpdate_Decode env (NetID network) update network;
    match err with
    | Some e => ret (Network_zero, Some e)
    | None =>
        do err <-
           (if hasrangeupdate m
            then ask (call_UpdateNetworkNodeAddresses (NetID network))
                   (fun docs =>
                      functions_UpdateNetworkNodeAddresses env docs (NetID network))
            else ret None);
        match err with
        | Some e => ret (Network_zero, Some e)
        | None =>
            do err <-
               (if haslocalrangeupdate m
                then ask (call_UpdateNetworkLocalAddresses (NetID network))
                       (fun docs =>
                          functions_UpdateNetworkLocalAddresses env docs
                            (NetID network))
                else ret None);
            match err with
            | Some e => ret (Network_zero, Some e)
            | None =>
                do '(returnnetwork, err) <- GetParentNetwork (NetID network);
                match err with
                | Some e => ret (Network_zero, Some e)
                | None => ret (returnnetwork, None)
                end
            end
        end
    end.

Definition DeleteNetwork (network : string)
  : M (mongo.DeleteResult * option error) :=
  let none := mongo.mkDeleteResult 0 in
  do '(nodecount, err) <-
     ask (call_GetNetworkNodeNumber network)
         (fun docs => functions_GetNetworkNodeNumber env docs network);
  match err with
  | Some e => ret (none, Some e)
  | None =>
      if (nodecount >? 0)%Z then
        ret (none,
             errors_New
               "Node check failed. All nodes must be deleted before deleting network")
      else
        do '(deleteResult, err) <- mongo.DeleteOne env network;
        match err with
        | Some e => ret (none, Some e)
        | None => ret (deleteResult, None)
        end
  end.

Definition CreateAccessKey (accesskey : AccessKey) (network : Network)
  : M (AccessKey * option error) :=
  do name <-
     (if String.eqb (Name accesskey) ""
      then ask call_GenKeyName (functions_GenKeyName env)
      else ret (Name accesskey));
  do value <-
     (if String.eqb (Value accesskey) ""
      then ask call_GenKey (functions_GenKey env)
      else ret (Value accesskey));
  let uses := if (Uses accesskey =? 0)%Z then 1 else Uses accesskey in
  let accesskey := mkAccessKey name value (AccessString accesskey) uses in
  do '(checkkeys, err) <- GetKeys (NetID network);
  match err with
  | Some _ => ret (AccessKey_zero, errors_New "could not retrieve network keys")
  | None =>
      if existsb (fun key => String.eqb (Name key) (Name accesskey)) checkkeys
      then ret (AccessKey_zero, errors_New "Duplicate AccessKey Name")
      else
        let privAddr :=
          match IsLocal network with
          | Some true => LocalRange network
          | _ => ""
          end in
        let netID := NetID network in
        do s <- ask call_GetServerConfig (fun _ => servercfg_GetServerConfig env);
        do w <- ask call_GetWGConfig (fun _ => servercfg_GetWGConfig env);
        let servervals :=
          ServerConfig.mk (ServerConfig.CoreDNSAddr s) (ServerConfig.APIConnString s)
            (ServerConfig.APIHost s) (ServerConfig.APIPort s)
            (ServerConfig.GRPCConnString s) (ServerConfig.GRPCHost s)
            (ServerConfig.GRPCPort s) (ServerConfig.GRPCSSL s) in
        let wgvals :=
          WG.mk (WG.GRPCWireGuard w) (WG.GRPCWGAddress w) (WG.GRPCWGPort w)
            (WG.GRPCWGPubKey w) (ServerConfig.APIHost s) in
        let accessToken :=
          AccessToken.mk servervals wgvals
            (ClientConfig.mk netID (Value accesskey) privAddr) in
        let '(tokenjson, err) := json_Marshal env accessToken in
        match err with
        | Some e => ret (accesskey, Some e)
        | None =>
            let accesskey :=
              mkAccessKey (Name accesskey) (Value accesskey)
                (base64_EncodeToString env tokenjson) (Uses accesskey) in
            match validator_Struct env accesskey with
            | Some e => ret (AccessKey_zero, Some e)
            | None =>
                let network :=
                  with_AccessKeys (AccessKeys network ++ [accesskey]) network in
                let update := [bson.accesskeys (AccessKeys network)] in
                do '(network, err) <-
                   mongo.FindOneAndUpdate_Decode env (NetID network) update network;
                match err with
                | Some e => ret (AccessKey_zero, Some e)
                | None => ret (accesskey, None)
                end
            end
        end
  end.

End Controller.
End controller.

Import controller.

(** ** Concrete values used to exercise the statements *)

Module demo.

Definition net (netid addressrange : string) : Network :=
  mkNetwork netid addressrange "" netid 51821 "" "" 20 0 None "nm-net" 0 1600000000
    (Some false) 30 "" (Some false) (Some false) 5 [].

Definition net1 : Network := net "net1" "10.0.0.0/24".
Definition comms : Network := net "comms" "10.100.0.0/24".

Definition key1 : AccessKey := mkAccessKey "laptop" "s3cr3t" "" 1.

(** A patch that sets nothing: every field at its zero value but [NetID]. *)
Definition patch (netid : string) : NetworkUpdate.t :=
  NetworkUpdate.mk netid "" "" "" 0 "" "" 0 "" None 0 "" None None 0.

Definition patch_range (netid addressrange : string) : NetworkUpdate.t :=
  NetworkUpdate.mk netid addressrange "" "" 0 "" "" 0 "" None 0 "" None None 0.

Definition patch_nodelimit (netid : string) (nodelimit : Z) : NetworkUpdate.t :=
  NetworkUpdate.mk netid "" "" "" 0 "" "" 0 "" None 0 "" None None nodelimit.

(** A server whose operator secret is ["master"], that knows the user token
    ["alice-token"] of a non-admin user, and whose [functions] answer from
    the collection. [nodes] is the node count of every network. *)
Definition env (nodes : Z) : Env :=
  mkEnv
    (fun docs netname => (existsb (mongo.matches netname) docs, None))
    (fun _ token =>
       if String.eqb token "alice-token" then ("alice", ["net1"], false, None)
       else ("", [], false, Some "invalid token"))
    (fun docs netname =>
       match mongo.first_match netname docs with
       | Some doc => (doc, None)
       | None => (Network_zero, Some mongo.ErrNoDocuments)
       end)
    (fun docs => (docs, None))
    (fun _ _ => (nodes, None))
    (fun _ _ => None)
    (fun _ _ => None)
    (fun _ => "key-generated")
    (fun _ => "secret-generated")
    "master"
    (models.ServerConfig.mk "" "api:8081" "api" "8081" "grpc:50051" "grpc" "50051" "off")
    (models.WG.mk "off" "10.101.0.1" "50555" "" "")
    1700000000
    (fun _ => ("{}", None))
    (fun _ => ([ALL_NETWORK_ACCESS], None))
    (fun s => s)
    (fun _ => None)
    (fun _ _ => None).

Definition world (docs : list Network) : World := mkWorld docs [].

(** A listing whose only ["comms"] network sits at index 100000001. *)
Definition listing_sentinel : list Network :=
  replicate (Z.to_nat 100000001) net1 ++ [comms].

End demo.

(** ** The rest of package [controller] *)

(** [strings.Contains(s, substr)]. *)
Definition strings_Contains (s substr : string) : bool :=
  match String.index 0 substr s with
  | Some _ => true
  | None => false
  end.

Module handlers.

(** Modelled from the spec: the declaration of [models.ErrorResponse] is not
    among the sources; [securityCheck] sets its fields [Code] and [Message]. *)
Module ErrorResponse.
Record t : Type := mk { Code : Z; Message : string }.
End ErrorResponse.

Definition http_StatusUnauthorized : Z := 401.
Definition http_StatusNotFound : Z := 404.

(** What [json.Marshal] makes of a slice of strings, and the verdict of the
    validator on a decoded patch (it follows the struct tags of
    [models.NetworkUpdate], which are not among the sources). *)
Record Lib : Type := mkLib {
  json_Marshal_networks : list string -> string * option error;
  validator_Struct_NetworkUpdate : NetworkUpdate.t -> option error
}.

(** What the middleware does with a request: it answers an error response,
    or it sets the headers ["user"] and ["networks"] and serves [next]. *)
Inductive Gate : Type :=
| Rejected (errorResponse : ErrorResponse.t)
| Next (user networks : string).

(** Field assignments [networkChange.F = v]. *)
Definition with_NetID (v : string) (p : NetworkUpdate.t) : NetworkUpdate.t :=
  let '(NetworkUpdate.mk id ar ar6 dn lp pu pd ka di ms ci lr il ds nl) := p in
  NetworkUpdate.mk v ar ar6 dn lp pu pd ka di ms ci lr il ds nl.
Definition with_AddressRange (v : string) (p : NetworkUpdate.t) : NetworkUpdate.t :=
  let '(NetworkUpdate.mk id ar ar6 dn lp pu pd ka di ms ci lr il ds nl) := p in
  NetworkUpdate.mk id v ar6 dn lp pu pd ka di ms ci lr il ds nl.
Definition with_AddressRange6 (v : string) (p : NetworkUpdate.t) : NetworkUpdate.t :=
  let '(NetworkUpdate.mk id ar ar6 dn lp pu pd ka di ms ci lr il ds nl) := p in
  NetworkUpdate.mk id ar v dn lp pu pd ka di ms ci lr il ds nl.

(** The three assignments of [updateNetwork] that fill the empty
    [AddressRange], [AddressRange6] and [NetID] of the decoded body from the
    current network. *)
Definition updateNetwork_fill (network : Network) (networkChange : NetworkUpdate.t)
  : NetworkUpdate.t :=
  let networkChange :=
    if String.eqb (NetworkUpdate.AddressRange networkChange) ""
    then with_AddressRange (AddressRange network) networkChange
    else networkChange in
  let networkChange :=
    if String.eqb (NetworkUpdate.AddressRange6 networkChange) ""
    then with_AddressRange6 (AddressRange6 network) networkChange
    else networkChange in
  let networkChange :=
    if String.eqb (NetworkUpdate.NetID networkChange) ""
    then with_NetID (NetID network) networkChange
    else networkChange in
  networkChange.

(** The loop of [DeleteKey] over the keys of the network. *)
Fixpoint DeleteKey_loop (keys : list AccessKey) (keyname : string) (found : bool)
  (updatedKeys : list AccessKey) : bool * list AccessKey :=
  match keys with
  | [] => (found, updatedKeys)
  | currentkey :: rest =>
      if String.eqb (Name currentkey) keyname
      then DeleteKey_loop rest keyname true updatedKeys
      else DeleteKey_loop rest keyname found (updatedKeys ++ [currentkey])
  end.

Section Handlers.
Context (env : Env) (lib : Lib).
Local Open Scope go_scope.

(** The middleware [securityCheck(reqAdmin, next)] on a request whose route
    parameter is [networkname] and whose Authorization header is
    [bearerToken]. *)
Definition securityCheck (reqAdmin : bool) (networkname bearerToken : string)
  : M Gate :=
  let errorResponse :=
    ErrorResponse.mk http_StatusUnauthorized "W1R3: It's not you it's me." in
  do '(err, networks, username) <-
     SecurityCheck env reqAdmin networkname bearerToken;
  match err with
  | Some e =>
      let errorResponse :=
        if strings_Contains e "does not exist"
        then ErrorResponse.mk http_StatusNotFound (ErrorResponse.Message errorResponse)
        else errorResponse in
      let errorResponse := ErrorResponse.mk (ErrorResponse.Code errorResponse) e in
      ret (Rejected errorResponse)
  | None =>
      let '(networksJson, err) := json_Marshal_networks lib networks in
      match err with
      | Some e =>
          ret (Rejected (ErrorResponse.mk (ErrorResponse.Code errorResponse) e))
      | None => ret (Next username networksJson)
      end
  end.

(** A route of [networkHandlers]: the middleware, then the handler. *)
Definition route {A : Type} (reqAdmin : bool) (networkname bearerToken : string)
  (next : string -> string -> M (Response A)) : M (ErrorResponse.t + Response A) :=
  do gate <- securityCheck reqAdmin networkname bearerToken;
  match gate with
  | Rejected errorResponse => ret (inl errorResponse)
  | Next user networks => do response <- next user networks; ret (inr response)
  end.

(** [ValidateNetworkUpdate]: the error of [v.Struct(network)]. *)
Definition ValidateNetworkUpdate (network : NetworkUpdate.t) : option error :=
  validator_Struct_NetworkUpdate lib network.

Definition GetNetwork (name : string) : M (Network * option error) :=
  do '(network, err) <- mongo.FindOne_Decode env name Network_zero;
  match err with
  | Some e => ret (Network_zero, Some e)
  | None => ret (network, None)
  end.

Definition getNetwork (user netname : string) : M (Response Network) :=
  do '(network, err) <- GetNetwork netname;
  match err with
  | Some e => ret (ErrorResponse "internal" e)
  | None =>
      run PrintUserLog user (String.append "fetched network " netname) 2;
      ret (StatusOK network)
  end.

Definition AlertNetwork (netid : string) : M (option error) :=
  do '(network, err) <- GetParentNetwork env netid;
  match err with
  | Some e => ret (Some e)
  | None =>
      let updatetime := time_Now_Unix env in
      let update :=
        [bson.nodeslastmodified updatetime; bson.networklastmodified updatetime] in
      do '(network, err) <- mongo.FindOneAndUpdate_Decode env netid update network;
      ret err
  end.

(** [updateNetwork]: [netname] is the route parameter and [networkChange]
    the decoded request body (a decoding error is dropped). *)
Definition updateNetwork (user netname : string) (networkChange : NetworkUpdate.t)
  : M (Response Network) :=
  do '(network, err) <- GetParentNetwork env netname;
  match err with
  | Some e => ret (ErrorResponse "internal" e)
  | None =>
      let networkChange := updateNetwork_fill network networkChange in
      match ValidateNetworkUpdate networkChange with
      | Some e => ret (ErrorResponse "badrequest" e)
      | None =>
          do '(returnednetwork, err) <- UpdateNetwork env networkChange network;
          match err with
          | Some e => ret (ErrorResponse "badrequest" e)
          | None =>
              run PrintUserLog user (String.append "updated network " netname) 1;
              ret (StatusOK returnednetwork)
          end
      end
  end.

Definition deleteNetwork (user network : string) : M (Response mongo.DeleteResult) :=
  do '(count, err) <- DeleteNetwork env network;
  match err with
  | Some e =>
      let errtype :=
        if strings_Contains e "Node check failed" then "forbidden"
        else "badrequest" in
      ret (ErrorResponse errtype e)
  | None =>
      run PrintUserLog user (String.append "deleted network " network) 1;
      ret (StatusOK count)
  end.

(** [createAccessKey]: [body] is what decoding the request body gives. *)
Definition createAccessKey (user netname : string) (body : AccessKey * option error)
  : M (Response AccessKey) :=
  do '(network, err) <- GetParentNetwork env netname;
  match err with
  | Some e => ret (ErrorResponse "internal" e)
  | None =>
      let '(accesskey, err) := body in
      match err with
      | Some e => ret (ErrorResponse "internal" e)
      | None =>
          do '(key, err) <- CreateAccessKey env accesskey network;
          match err with
          | Some e => ret (ErrorResponse "badrequest" e)
          | None =>
              run PrintUserLog user (String.append "created access key " netname) 1;
              ret (StatusOK key)
          end
      end
  end.

Definition GetSignupToken (netID : string) : M (AccessKey * option error) :=
  let accesskey := AccessKey_zero in
  do s <- ask call_GetServerConfig (fun _ => servercfg_GetServerConfig env);
  do w <- ask call_GetWGConfig (fun _ => servercfg_GetWGConfig env);
  let servervals :=
    ServerConfig.mk "" (ServerConfig.APIConnString s)
      (ServerConfig.APIHost s) (ServerConfig.APIPort s)
      (ServerConfig.GRPCConnString s) (ServerConfig.GRPCHost s)
      (ServerConfig.GRPCPort s) (ServerConfig.GRPCSSL s) in
  let wgvals :=
    WG.mk (WG.GRPCWireGuard w) (WG.GRPCWGAddress w) (WG.GRPCWGPort w)
      (WG.GRPCWGPubKey w) (ServerConfig.APIHost s) in
  let accessToken := AccessToken.mk servervals wgvals (ClientConfig.mk "" "" "") in
  let '(tokenjson, err) := json_Marshal env accessToken in
  match err with
  | Some e => ret (accesskey, Some e)
  | None =>
      ret (mkAccessKey (Name accesskey) (Value accesskey)
             (base64_EncodeToString env tokenjson) (Uses accesskey), None)
  end.

Definition getSignupToken (user netID : string) : M (Response AccessKey) :=
  do '(token, err) <- GetSignupToken netID;
  match err with
  | Some e => ret (ErrorResponse "internal" e)
  | None =>
      run PrintUserLog user (String.append "got signup token " netID) 2;
      ret (StatusOK token)
  end.

Definition getAccessKeys (user network : string) : M (Response (list AccessKey)) :=
  do '(keys, err) <- GetKeys env network;
  match err with
  | Some e => ret (ErrorResponse "internal" e)
  | None =>
      run PrintUserLog user
            (String.append "fetched access keys on network " network) 2;
      ret (StatusOK keys)
  end.

Definition DeleteKey (keyname netname : string) : M (option error) :=
  do '(network, err) <- GetParentNetwork env netname;
  match err with
  | Some e => ret (Some e)
  | None =>
      let '(found, updatedKeys) :=
        DeleteKey_loop (AccessKeys network) keyname false [] in
      if negb found then
        ret (errors_New
               (String.append "key " (String.append keyname " does not exist")))
      else
        let update := [bson.accesskeys updatedKeys] in
        do '(network, err) <-
           mongo.FindOneAndUpdate_Decode env netname update network;
        ret err
  end.

Definition deleteAccessKey (user keyname netname : string) : M (Response unit) :=
  do err <- DeleteKey keyname netname;
  match err with
  | Some e => ret (ErrorResponse "badrequest" e)
  | None =>
      run PrintUserLog user
            (String.append "deleted access key "
               (String.append keyname (String.append " on network " netname))) 1;
      ret (StatusOK tt)
  end.

End Handlers.
End handlers.

(** ** The writes of package [database] *)

Module database_writes.

(** The connection [Database]: what [WriteOne] answers for a statement,
    given the statements written before it. *)
Definition Connection : Type := list string -> string -> option error.

(** State passing over the statements written so far, oldest first. *)
Definition DB (A : Type) : Type := list string -> A * list string.

Section Writes.
Context (Database : Connection).

Definition WriteOne (statement : string) : DB (option error) :=
  fun written => (Database written statement, written ++ [statement]).

Definition createTable (tableName : string) : DB (option error) :=
  WriteOne
    (String.append "CREATE TABLE IF NOT EXISTS "
       (String.append tableName
          " (key TEXT NOT NULL UNIQUE PRIMARY KEY, value TEXT)")).

Definition NETWORKS_TABLE_NAME : string := "networks".
Definition NODES_TABLE_NAME : string := "nodes".
Definition USERS_TABLE_NAME : string := "users".
Definition DNS_TABLE_NAME : string := "dns".
Definition EXT_CLIENT_TABLE_NAME : string := "extclients".
Definition INT_CLIENTS_TABLE_NAME : string := "intclients".

(** [createTables] drops the error of each [createTable]. *)
Definition createTables : DB unit :=
  fun written =>
    let '(_, written) := createTable NETWORKS_TABLE_NAME written in
    let '(_, written) := createTable NODES_TABLE_NAME written in
    let '(_, written) := createTable USERS_TABLE_NAME written in
    let '(_, written) := createTable DNS_TABLE_NAME written in
    let '(_, written) := createTable EXT_CLIENT_TABLE_NAME written in
    let '(_, written) := createTable INT_CLIENTS_TABLE_NAME written in
    (tt, written).

Definition Insert (key value tableName : string) : DB (option error) :=
  WriteOne
    (String.append "INSERT OR REPLACE INTO "
       (String.append tableName
          (String.append " (key, value) VALUES ('"
             (String.append key
                (String.append "', '" (String.append value "')")))))).

Definition DeleteRecord (tableName key : string) : DB (option error) :=
  WriteOne
    (String.append "DELETE FROM "
       (String.append tableName
          (String.append " WHERE key = "
             (String "034"%char (String.append key (String "034"%char "")))))).

Definition DeleteAllRecords (tableName : string) : DB (option error) :=
  fun written =>
    let '(err, written) :=
      WriteOne (String.append "DELETE TABLE " tableName) written in
    match err with
    | Some e => (Some e, written)
    | None => createTable tableName written
    end.

End Writes.

(** [InitializeDatabase]: [opened] is what [gorqlite.Open] returns. *)
Definition InitializeDatabase (opened : Connection * option error)
  : DB (option error) :=
  fun written =>
    let '(conn, err) := opened in
    match err with
    | Some e => (Some e, written)
    | None =>
        let '(_, written) := createTables conn written in
        (None, written)
    end.

End database_writes.

(** ** Concrete values for the handlers *)

Module demo_handlers.

(** A codec that writes a list of names separated by commas, and a validator
    that accepts every patch. *)
Definition lib : handlers.Lib :=
  handlers.mkLib (fun names => (String.concat "," names, None)) (fun _ => None).

(** The server [demo.env] with the decoder of that codec. *)
Definition env (nodes : Z) : Env :=
  let e := demo.env nodes in
  mkEnv (functions_NetworkExists e) (functions_VerifyUserToken e)
    (functions_GetParentNetwork e) (functions_ListNetworks e)
    (functions_GetNetworkNodeNumber e) (functions_UpdateNetworkNodeAddresses e)
    (functions_UpdateNetworkLocalAddresses e) (functions_GenKeyName e)
    (functions_GenKey e) (servercfg_GetMasterKey e) (servercfg_GetServerConfig e)
    (servercfg_GetWGConfig e) (time_Now_Unix e) (json_Marshal e)
    (fun s => (strings_Split s ","%char, None))
    (base64_EncodeToString e) (validator_Struct e) (mongo_fault e).

(** A server like [demo.env] whose address planner fails. *)
Definition env_planner_down : Env :=
  let e := demo.env 0 in
  mkEnv (functions_NetworkExists e) (functions_VerifyUserToken e)
    (functions_GetParentNetwork e) (functions_ListNetworks e)
    (functions_GetNetworkNodeNumber e) (fun _ _ => Some "planner down")
    (functions_UpdateNetworkLocalAddresses e) (functions_GenKeyName e)
    (functions_GenKey e) (servercfg_GetMasterKey e) (servercfg_GetServerConfig e)
    (servercfg_GetWGConfig e) (time_Now_Unix e) (json_Marshal e)
    (json_Unmarshal e) (base64_EncodeToString e) (validator_Struct e)
    (mongo_fault e).

Definition key2 : AccessKey := mkAccessKey "phone" "t0k3n" "" 1.

(** A connection that refuses every statement. *)
Definition refusing : database_writes.Connection := fun _ _ => Some "refused".

End demo_handlers.

(** * Properties *)

(** ** The record fetch of package [database] *)

Lemma scan_rows_lookup_absent (rows : list (string * string))
  (records : gmap string string) (key : string) :
  key ∉ rows.*1 ->
  database.scan_rows rows records !! key = records !! key.
Proof.
  revert records. induction rows as [|[k v] rows IH]; intros records Hkey.
  - reflexivity.
  - simpl in *. rewrite IH.
    + apply lookup_insert_ne. intros ->. apply Hkey. left.
    + intros Hin. apply Hkey. right. exact Hin.
Qed.

(** C9 (as amended): for a key absent from the table, when the query itself
    succeeds, [FetchRecord] answers the empty string with a nil error, the
    answer it also gives for a key stored with an empty value; only a failed
    query is reported as an error. *)
Theorem FetchRecord_absent_key (rows : list (string * string)) (key : string) :
  key ∉ rows.*1 ->
  database.FetchRecord (rows, None) key = ("", None)
  /\ database.FetchRecord (rows ++ [(key, "")], None) key = ("", None)
  /\ forall err, database.FetchRecord (rows, Some err) key = ("", Some err).
Proof.
  intros Hkey. unfold database.FetchRecord, database.FetchRecords, database.map_index.
  repeat split.
  - rewrite scan_rows_lookup_absent by exact Hkey. rewrite lookup_empty. reflexivity.
  - assert (Hsnoc : forall rs m, database.scan_rows (rs ++ [(key, "")]) m !! key = Some "").
    { induction rs as [|[k v] rs IH]; intros m; simpl.
      - apply lookup_insert_eq.
      - apply IH. }
    rewrite Hsnoc. reflexivity.
Qed.

Lemma FetchRecord_absent_key_witness :
  database.FetchRecord ([("net1", "{}")], None) "net2" = ("", None)
  /\ database.FetchRecord ([("net1", "{}")] ++ [("net2", "")], None) "net2" = ("", None)
  /\ forall err, database.FetchRecord ([("net1", "{}")], Some err) "net2" = ("", Some err).
Proof.
  apply (FetchRecord_absent_key [("net1", "{}")] "net2").
  simpl. rewrite list_elem_of_singleton. discriminate.
Defined.

(** C9 (as stated) fails: the table holds only ["net1"], yet fetching
    ["net2"] returns a value with a nil error, not a not-found outcome. *)
Lemma FetchRecord_absent_key_counterexample :
  ("net2" ∉ [("net1", "{}")].*1)
  /\ ~ (snd (database.FetchRecord ([("net1", "{}")], None) "net2") <> None).
Proof.
  split.
  - simpl. rewrite list_elem_of_singleton. discriminate.
  - intros H. apply H. vm_compute. reflexivity.
Qed.

(** ** The listing filter *)

Definition is_comms (net : Network) : Prop := NetID net = "comms".

Section RemoveComms_facts.

Lemma RemoveComms_loop_app (l1 l2 : list Network) (ind index : Z) :
  RemoveComms_loop (l1 ++ l2) ind index
  = RemoveComms_loop l2 (ind + Z.of_nat (length l1)) (RemoveComms_loop l1 ind index).
Proof.
  revert ind index. induction l1 as [|net l1 IH]; intros ind index.
  - simpl. f_equal. lia.
  - cbn [app RemoveComms_loop length]. rewrite IH. f_equal. lia.
Qed.

Lemma RemoveComms_loop_none (networks : list Network) (ind index : Z) :
  Forall (fun net => ~ is_comms net) networks ->
  RemoveComms_loop networks ind index = index.
Proof.
  intros Hnone. revert ind index.
  induction Hnone as [|net networks Hnet _ IH]; intros ind index.
  - reflexivity.
  - cbn [RemoveComms_loop]. rewrite IH.
    destruct (String.eqb_spec (NetID net) "comms") as [Heq|_]; [|reflexivity].
    contradiction.
Qed.

Lemma RemoveComms_loop_last (before after : list Network) (net : Network)
  (ind index : Z) :
  is_comms net ->
  Forall (fun net => ~ is_comms net) after ->
  RemoveComms_loop (before ++ net :: after) ind index = ind + Z.of_nat (length before).
Proof.
  intros Hnet Hafter. rewrite RemoveComms_loop_app. cbn [RemoveComms_loop].
  rewrite RemoveComms_loop_none by exact Hafter.
  unfold is_comms in Hnet. rewrite Hnet. reflexivity.
Qed.

Lemma RemoveComms_none (networks : list Network) :
  Forall (fun net => ~ is_comms net) networks -> RemoveComms networks = networks.
Proof.
  intros Hnone. unfold RemoveComms.
  rewrite RemoveComms_loop_none by exact Hnone. reflexivity.
Qed.

Lemma RemoveComms_last (before after : list Network) (net : Network) :
  is_comms net ->
  Forall (fun net => ~ is_comms net) after ->
  Z.of_nat (length before) <> 100000001 ->
  RemoveComms (before ++ net :: after) = before ++ after.
Proof.
  intros Hnet Hafter Hindex. unfold RemoveComms.
  rewrite RemoveComms_loop_last by assumption.
  rewrite Z.add_0_l.
  destruct (Z.eqb_spec (Z.of_nat (length before)) 100000001) as [Heq|_];
    [contradiction|].
  rewrite Nat2Z.id.
  replace (Z.to_nat (Z.of_nat (length before) + 1)) with (S (length before)) by lia.
  rewrite take_app_length. cbn [app].
  change (net :: after) with ([net] ++ after).
  rewrite app_assoc.
  replace (S (length before)) with (length (before ++ [net]))
    by (rewrite length_app; simpl; lia).
  rewrite drop_app_length. reflexivity.
Qed.

Lemma RemoveComms_at_sentinel (before : list Network) (net : Network) :
  is_comms net ->
  Z.of_nat (length before) = 100000001 ->
  RemoveComms (before ++ [net]) = before ++ [net].
Proof.
  intros Hnet Hindex. unfold RemoveComms.
  rewrite RemoveComms_loop_last by (assumption || constructor).
  rewrite Z.add_0_l, Hindex, Z.eqb_refl. reflexivity.
Qed.

End RemoveComms_facts.

Lemma getNetworks_body (env : Env) (user headerNetworks : string) (w : World)
  (body : list Network) :
  fst (getNetworks env user headerNetworks w) = StatusOK body ->
  exists allnetworks, body = RemoveComms allnetworks.
Proof.
  unfold getNetworks.
  destruct (json_Unmarshal env headerNetworks) as [networksSlice [e|]];
    [discriminate|].
  destruct networksSlice as [|first rest]; [discriminate|].
  unfold bind at 1.
  destruct (if String.eqb first ALL_NETWORK_ACCESS then _ else _) as [[all err] w'].
  destruct err as [e|]; [discriminate|].
  unfold bind, PrintUserLog, ask, ret. simpl.
  intros [= <-]. exists all. reflexivity.
Qed.

(** X1: where [RemoveComms] does what its name says: it returns the listing
    unchanged when no network has NetID ["comms"]; otherwise, unless the last
    such network sits at index 100000001 (the value the loop keeps for "none
    seen"), it returns the listing without that last ["comms"] network, the
    others in their order, so that a listing holding it once no longer shows
    it; and the body [getNetworks] answers is what [RemoveComms] returns. *)
Theorem RemoveComms_drops_last_comms (listing : list Network) :
  (Forall (fun net => ~ is_comms net) listing -> RemoveComms listing = listing)
  /\ (forall before net after,
        listing = before ++ net :: after ->
        is_comms net ->
        Forall (fun net => ~ is_comms net) after ->
        Z.of_nat (length before) <> 100000001 ->
        RemoveComms listing = before ++ after
        /\ (Forall (fun net => ~ is_comms net) before ->
            Forall (fun net => ~ is_comms net) (RemoveComms listing)))
  /\ (forall env user headerNetworks rest w,
        json_Unmarshal env headerNetworks = (ALL_NETWORK_ACCESS :: rest, None) ->
        functions_ListNetworks env (networks w) = (listing, None) ->
        fst (getNetworks env user headerNetworks w) = StatusOK (RemoveComms listing)).
Proof.
  split; [|split].
  - apply RemoveComms_none.
  - intros before net after -> Hnet Hafter Hindex.
    rewrite RemoveComms_last by assumption.
    split; [reflexivity|].
    intros Hbefore. apply Forall_app. split; assumption.
  - intros env user headerNetworks rest w Hheader Hlist.
    unfold getNetworks. rewrite Hheader.
    change (String.eqb ALL_NETWORK_ACCESS ALL_NETWORK_ACCESS) with true.
    unfold bind, ask, ret, PrintUserLog. cbn [networks fst snd].
    rewrite Hlist. reflexivity.
Qed.

Lemma RemoveComms_drops_last_comms_witness :
  RemoveComms [demo.net1; demo.comms; demo.net "net2" "10.0.2.0/24"]
  = [demo.net1] ++ [demo.net "net2" "10.0.2.0/24"]
  /\ Forall (fun net => ~ is_comms net)
       (RemoveComms [demo.net1; demo.comms; demo.net "net2" "10.0.2.0/24"]).
Proof.
  destruct (RemoveComms_drops_last_comms
              [demo.net1; demo.comms; demo.net "net2" "10.0.2.0/24"])
    as (_ & Hlast & _).
  destruct (Hlast [demo.net1] demo.comms [demo.net "net2" "10.0.2.0/24"])
    as [Heq Hnone].
  - reflexivity.
  - reflexivity.
  - repeat constructor. discriminate.
  - simpl. lia.
  - split; [exact Heq|]. apply Hnone. repeat constructor. discriminate.
Defined.

(** C10: the claim holds of [RemoveComms] except at one index. In a listing
    whose last ["comms"] network sits at index 100000001 the loop leaves
    [index] at the very value that stands for "none seen", and [RemoveComms]
    returns the listing unchanged: no element is removed and ["comms"] is
    still shown. *)
Theorem RemoveComms_sentinel_listing :
  Exists is_comms demo.listing_sentinel
  /\ RemoveComms demo.listing_sentinel = demo.listing_sentinel
  /\ ~ (exists before net after,
          demo.listing_sentinel = before ++ net :: after
          /\ RemoveComms demo.listing_sentinel = before ++ after).
Proof.
  assert (Hsame : RemoveComms demo.listing_sentinel = demo.listing_sentinel).
  { unfold demo.listing_sentinel. apply RemoveComms_at_sentinel.
    - reflexivity.
    - rewrite length_replicate. apply Z2Nat.id. discriminate. }
  split; [|split].
  - unfold demo.listing_sentinel. apply Exists_app. right. constructor. reflexivity.
  - exact Hsame.
  - intros (before & net & after & Hsplit & Hremoved).
    rewrite Hsame, Hsplit in Hremoved.
    apply (f_equal (@length Network)) in Hremoved.
    rewrite !length_app in Hremoved. simpl in Hremoved. lia.
Qed.

(** ** Runs of the controller *)

Lemma calls_since_app (w : World) (docs : list Network) (new : list Call) :
  calls_since w (mkWorld docs (calls w ++ new)) = new.
Proof. unfold calls_since. simpl. apply drop_app_length. Qed.

Lemma first_match_NetID (netid : string) (docs : list Network) (doc : Network) :
  mongo.first_match netid docs = Some doc -> NetID doc = netid.
Proof.
  unfold mongo.first_match. intros H. apply find_some in H as [_ H].
  unfold mongo.matches in H. apply String.eqb_eq in H. exact H.
Qed.

(** Unfold the monad and the calls, then split on the innermost scrutinee. *)
Ltac go_run :=
  cbv beta delta [bind ask ret put_networks get_networks record_call PrintUserLog
                  GetParentNetwork mongo.FindOneAndUpdate_Decode
                  mongo.FindOne_Decode mongo.DeleteOne] iota;
  cbn [networks calls fst snd].
Ltac go_step :=
  match goal with
  | |- context [match ?x with _ => _ end] =>
      lazymatch x with
      | context [match _ with _ => _ end] => fail
      | _ => first [is_var x; destruct x | destruct x eqn:?]
      end
  end.
Ltac go_cases := go_run; repeat (go_step; go_run).
Ltac go_calls :=
  cbn [snd fst]; rewrite <- ?app_assoc; rewrite ?calls_since_app; cbn [app].

(** ** The merge of [UpdateNetwork] *)

Section Merge_facts.
Context (patch : NetworkUpdate.t) (cur : Network).

Lemma if_then_network {A : Type} (p : Network -> A) (cond : bool)
  (body : Merge -> Merge) (m : Merge) :
  (forall m, p (network (body m)) = p (network m)) ->
  p (network (if_then cond body m)) = p (network m).
Proof. intros H. unfold if_then. destruct cond; [apply H|reflexivity]. Qed.

Lemma if_then_hasrangeupdate (cond : bool) (body : Merge -> Merge) (m : Merge) :
  (forall m, hasrangeupdate (body m) = hasrangeupdate m) ->
  hasrangeupdate (if_then cond body m) = hasrangeupdate m.
Proof. intros H. unfold if_then. destruct cond; [apply H|reflexivity]. Qed.

Ltac frame := intros [[] ? ? ?]; reflexivity.

Lemma merge_NetID : NetID (network (UpdateNetwork_merge patch cur)) = NetID cur.
Proof.
  unfold UpdateNetwork_merge. cbv zeta.
  repeat (rewrite (if_then_network NetID) by frame). reflexivity.
Qed.

Lemma merge_AddressRange6 :
  AddressRange6 (network (UpdateNetwork_merge patch cur)) = AddressRange6 cur.
Proof.
  unfold UpdateNetwork_merge. cbv zeta.
  repeat (rewrite (if_then_network AddressRange6) by frame). reflexivity.
Qed.

Lemma merge_hasrangeupdate :
  hasrangeupdate (UpdateNetwork_merge patch cur)
  = nonempty (NetworkUpdate.AddressRange patch).
Proof.
  unfold UpdateNetwork_merge. cbv zeta.
  do 11 (rewrite if_then_hasrangeupdate by frame).
  unfold if_then. destruct (nonempty _); reflexivity.
Qed.

Lemma merge_AddressRange :
  AddressRange (network (UpdateNetwork_merge patch cur))
  = if nonempty (NetworkUpdate.AddressRange patch)
    then NetworkUpdate.AddressRange patch else AddressRange cur.
Proof.
  unfold UpdateNetwork_merge. cbv zeta.
  do 11 (rewrite (if_then_network AddressRange) by frame).
  unfold if_then. destruct (nonempty _); [destruct cur|]; reflexivity.
Qed.

Lemma merged_NetID (env : Env) : NetID (UpdateNetwork_merged env patch cur) = NetID cur.
Proof.
  unfold UpdateNetwork_merged, SetNetworkLastModified. cbv zeta.
  destruct (haschange _); [|apply merge_NetID].
  rewrite <- merge_NetID. destruct (network _). reflexivity.
Qed.

Lemma merge_unset :
  NetworkUpdate.unset patch ->
  UpdateNetwork_merge patch cur = mkMerge cur false false false.
Proof.
  destruct patch. unfold NetworkUpdate.unset. simpl.
  intros (-> & _ & -> & -> & -> & -> & -> & -> & -> & -> & -> & -> & -> & _).
  reflexivity.
Qed.

End Merge_facts.

Lemma nonempty_true (s : string) : nonempty s = true <-> s <> "".
Proof.
  unfold nonempty. destruct (String.eqb_spec s ""); simpl; split; congruence.
Qed.

(** C3: a patch whose NetID differs from the current record's makes
    [UpdateNetwork] return the error "NetID is not editable" with the zero
    record, and leaves the world as it was: no call is made, so none that
    persists, and the collection is unchanged. *)
Theorem UpdateNetwork_NetID_not_editable (env : Env) (patch : NetworkUpdate.t)
  (cur : Network) (w : World) :
  NetworkUpdate.NetID patch <> NetID cur ->
  UpdateNetwork env patch cur w
  = ((Network_zero, Some "NetID is not editable"), w)
  /\ networks (snd (UpdateNetwork env patch cur w)) = networks w
  /\ existsb is_persistence (calls_since w (snd (UpdateNetwork env patch cur w)))
     = false.
Proof.
  intros Hid. unfold UpdateNetwork.
  destruct (String.eqb_spec (NetworkUpdate.NetID patch) (NetID cur)) as [Heq|_];
    [contradiction|].
  cbn [negb]. unfold ret, errors_New. cbn [snd].
  repeat split. unfold calls_since. rewrite drop_all. reflexivity.
Qed.

Lemma UpdateNetwork_NetID_not_editable_witness :
  UpdateNetwork (demo.env 0) (demo.patch "net2") demo.net1 (demo.world [demo.net1])
  = ((Network_zero, Some "NetID is not editable"), demo.world [demo.net1]).
Proof.
  apply (UpdateNetwork_NetID_not_editable (demo.env 0) (demo.patch "net2")
           demo.net1 (demo.world [demo.net1])).
  simpl. discriminate.
Defined.

(** C6: with a patch whose fields are all absent or zero and whose NetID is
    the current one, the merge of [UpdateNetwork] yields the current record,
    sets none of the three change flags and stamps no networkLastModified;
    the update it then sends to the store carries the current values. *)
Theorem UpdateNetwork_unset_patch (env : Env) (patch : NetworkUpdate.t)
  (cur : Network) (w : World) :
  NetworkUpdate.unset patch ->
  NetworkUpdate.NetID patch = NetID cur ->
  UpdateNetwork_merge patch cur = mkMerge cur false false false
  /\ UpdateNetwork_merged env patch cur = cur
  /\ NetworkLastModified (UpdateNetwork_merged env patch cur)
     = NetworkLastModified cur
  /\ exists rest,
       calls_since w (snd (UpdateNetwork env patch cur w))
       = call_FindOneAndUpdate (NetID cur) (UpdateNetwork_update cur) :: rest.
Proof.
  intros Hunset Hid.
  assert (Hmerged : UpdateNetwork_merged env patch cur = cur).
  { unfold UpdateNetwork_merged. rewrite merge_unset by exact Hunset. reflexivity. }
  split; [apply merge_unset; exact Hunset|].
  split; [exact Hmerged|].
  split; [rewrite Hmerged; reflexivity|].
  unfold UpdateNetwork. rewrite Hid, String.eqb_refl. cbn [negb].
  rewrite Hmerged, merge_unset by exact Hunset. cbn [hasrangeupdate haslocalrangeupdate].
  go_cases; go_calls; eexists; reflexivity.
Qed.

Lemma UpdateNetwork_unset_patch_witness :
  UpdateNetwork_merge (demo.patch "net1") demo.net1
  = mkMerge demo.net1 false false false
  /\ UpdateNetwork_merged (demo.env 0) (demo.patch "net1") demo.net1 = demo.net1.
Proof.
  destruct (UpdateNetwork_unset_patch (demo.env 0) (demo.patch "net1") demo.net1
              (demo.world [demo.net1])) as (Hmerge & Hmerged & _).
  - unfold NetworkUpdate.unset. simpl. repeat split.
  - reflexivity.
  - split; [exact Hmerge|exact Hmerged].
Defined.

(** C2 (as amended): for a patch [UpdateNetwork] accepts, the address-range
    flag is set exactly when the patch's IPv4 address-range field is
    non-empty, whether or not it differs from the current range; whenever the
    merged IPv4 range differs from the current one the flag is set; and the
    address-reallocation call is made only when the flag is set, and is made
    when the flag is set and the record was persisted. *)
Theorem UpdateNetwork_range_flag (env : Env) (patch : NetworkUpdate.t)
  (cur : Network) (w : World) :
  NetworkUpdate.NetID patch = NetID cur ->
  (hasrangeupdate (UpdateNetwork_merge patch cur) = true
   <-> NetworkUpdate.AddressRange patch <> "")
  /\ (AddressRange (network (UpdateNetwork_merge patch cur)) <> AddressRange cur ->
      hasrangeupdate (UpdateNetwork_merge patch cur) = true)
  /\ (existsb is_UpdateNetworkNodeAddresses
        (calls_since w (snd (UpdateNetwork env patch cur w))) = true ->
      hasrangeupdate (UpdateNetwork_merge patch cur) = true)
  /\ (hasrangeupdate (UpdateNetwork_merge patch cur) = true ->
      mongo_fault env
        (call_FindOneAndUpdate (NetID cur)
           (UpdateNetwork_update (UpdateNetwork_merged env patch cur)))
        (networks w) = None ->
      mongo.first_match (NetID cur) (networks w) <> None ->
      In (call_UpdateNetworkNodeAddresses (NetID cur))
        (calls_since w (snd (UpdateNetwork env patch cur w)))).
Proof.
  intros Hid. split; [|split; [|split]].
  - rewrite merge_hasrangeupdate. apply nonempty_true.
  - rewrite merge_AddressRange, merge_hasrangeupdate.
    destruct (nonempty _); [reflexivity|congruence].
  - unfold UpdateNetwork. rewrite Hid, String.eqb_refl. cbn [negb].
    rewrite merged_NetID.
    destruct (hasrangeupdate (UpdateNetwork_merge patch cur)); [reflexivity|].
    go_cases; go_calls; intros H; exact H.
  - intros Hflag Hfault Hdoc.
    unfold UpdateNetwork. rewrite Hid, String.eqb_refl. cbn [negb].
    rewrite merged_NetID, Hflag. go_run. rewrite Hfault.
    destruct (mongo.first_match (NetID cur) (networks w)) as [doc|] eqn:Hmatch;
      [|contradiction].
    apply first_match_NetID in Hmatch. rewrite Hmatch.
    go_cases; go_calls; right; left; reflexivity.
Qed.

Lemma UpdateNetwork_range_flag_witness :
  hasrangeupdate (UpdateNetwork_merge (demo.patch_range "net1" "10.0.1.0/24") demo.net1)
  = true
  /\ In (call_UpdateNetworkNodeAddresses "net1")
       (calls_since (demo.world [demo.net1])
          (snd (UpdateNetwork (demo.env 0) (demo.patch_range "net1" "10.0.1.0/24")
                  demo.net1 (demo.world [demo.net1])))).
Proof.
  destruct (UpdateNetwork_range_flag (demo.env 0)
              (demo.patch_range "net1" "10.0.1.0/24") demo.net1
              (demo.world [demo.net1])) as (Hflag & _ & _ & Hcall).
  - reflexivity.
  - assert (H : hasrangeupdate
                  (UpdateNetwork_merge (demo.patch_range "net1" "10.0.1.0/24")
                     demo.net1) = true).
    { apply Hflag. simpl. discriminate. }
    split; [exact H|]. apply Hcall.
    + exact H.
    + reflexivity.
    + simpl. discriminate.
Defined.

(** C2 (as stated) fails: a patch whose address range equals the current one
    is accepted, the merged IPv4 and IPv6 ranges are the current ones, yet
    the flag is set and the reallocation call is made. *)
Lemma UpdateNetwork_range_flag_counterexample :
  NetworkUpdate.NetID (demo.patch_range "net1" "10.0.0.0/24") = NetID demo.net1
  /\ ~ (hasrangeupdate
          (UpdateNetwork_merge (demo.patch_range "net1" "10.0.0.0/24") demo.net1)
        = true
        <-> (AddressRange
               (network
                  (UpdateNetwork_merge (demo.patch_range "net1" "10.0.0.0/24")
                     demo.net1)) <> AddressRange demo.net1
             \/ AddressRange6
                  (network
                     (UpdateNetwork_merge (demo.patch_range "net1" "10.0.0.0/24")
                        demo.net1)) <> AddressRange6 demo.net1))
  /\ In (call_UpdateNetworkNodeAddresses "net1")
       (calls_since (demo.world [demo.net1])
          (snd (UpdateNetwork (demo.env 0) (demo.patch_range "net1" "10.0.0.0/24")
                  demo.net1 (demo.world [demo.net1])))).
Proof.
  split; [reflexivity|]. split.
  - intros [Hdiffers _].
    destruct (Hdiffers eq_refl) as [H|H]; apply H; reflexivity.
  - vm_compute. right. left. reflexivity.
Qed.

(** ** The deletion guard *)

(** C4: when the node count of a network is positive, [DeleteNetwork]
    returns the error "Node check failed..." having made no call but the
    count query: [DeleteOne] is not invoked and the collection is unchanged.
    For a count that is not negative, [DeleteOne] is invoked exactly when the
    query succeeded with count zero. *)
Theorem DeleteNetwork_node_check (env : Env) (network : string) (w : World)
  (nodecount : Z) (err : option error) :
  functions_GetNetworkNodeNumber env (networks w) network = (nodecount, err) ->
  (err = None -> nodecount > 0 ->
   DeleteNetwork env network w
   = ((mongo.mkDeleteResult 0,
       Some "Node check failed. All nodes must be deleted before deleting network"),
      mkWorld (networks w) (calls w ++ [call_GetNetworkNodeNumber network]))
   /\ existsb is_DeleteOne (calls_since w (snd (DeleteNetwork env network w)))
      = false)
  /\ (0 <= nodecount ->
      (existsb is_DeleteOne (calls_since w (snd (DeleteNetwork env network w)))
       = true
       <-> err = None /\ nodecount = 0))
  /\ (existsb is_DeleteOne (calls_since w (snd (DeleteNetwork env network w)))
      = false ->
      networks (snd (DeleteNetwork env network w)) = networks w).
Proof.
  intros Hcount. unfold DeleteNetwork. go_run. rewrite Hcount.
  split; [|split].
  - intros -> Hpos.
    destruct (Z.gtb_spec nodecount 0) as [_|Hle]; [|lia].
    unfold errors_New. go_calls. split; reflexivity.
  - intros Hnonneg. destruct err as [e|].
    + go_calls. split; [discriminate|intros [[=] _]].
    + destruct (Z.gtb_spec nodecount 0) as [Hpos|Hle].
      * go_calls. split; [discriminate|intros [_ ->]; lia].
      * go_cases; go_calls; (split; [intros _; split; [reflexivity|lia]|reflexivity]).
  - destruct err as [e|]; [reflexivity|].
    destruct (Z.gtb_spec nodecount 0) as [Hpos|Hle]; [reflexivity|].
    go_cases; go_calls; try reflexivity; discriminate.
Qed.

Lemma DeleteNetwork_node_check_witness :
  DeleteNetwork (demo.env 3) "net1" (demo.world [demo.net1])
  = ((mongo.mkDeleteResult 0,
      Some "Node check failed. All nodes must be deleted before deleting network"),
     mkWorld [demo.net1] [call_GetNetworkNodeNumber "net1"])
  /\ (existsb is_DeleteOne
        (calls_since (demo.world [demo.net1])
           (snd (DeleteNetwork (demo.env 0) "net1" (demo.world [demo.net1]))))
      = true
      <-> @None error = None /\ 0 = 0).
Proof.
  split.
  - destruct (DeleteNetwork_node_check (demo.env 3) "net1" (demo.world [demo.net1])
                3 None eq_refl) as (Hblocked & _).
    destruct Hblocked as [Hrun _]; [reflexivity|lia|exact Hrun].
  - destruct (DeleteNetwork_node_check (demo.env 0) "net1" (demo.world [demo.net1])
                0 None eq_refl) as (_ & Hzero & _).
    apply Hzero. lia.
Defined.

(** ** The authorization gate *)

(** C5: for a non-empty target network that the existence lookup reports
    absent, [SecurityCheck] returns the error "This network does not exist",
    no networks and no user name, whatever the credential and the flag; the
    lookup is the only call it makes, so no credential has been checked. *)
Theorem SecurityCheck_network_not_found (env : Env) (reqAdmin : bool)
  (netname token : string) (w : World) :
  netname <> "" ->
  functions_NetworkExists env (networks w) netname = (false, None) ->
  SecurityCheck env reqAdmin netname token w
  = ((Some "This network does not exist", [], ""),
     mkWorld (networks w) (calls w ++ [call_NetworkExists netname]))
  /\ existsb is_credential_check
       (calls_since w (snd (SecurityCheck env reqAdmin netname token w))) = false
  /\ forall reqAdmin' token',
       fst (SecurityCheck env reqAdmin' netname token' w)
       = fst (SecurityCheck env reqAdmin netname token w).
Proof.
  intros Hname Hexists.
  assert (Hrun : forall reqAdmin token,
             SecurityCheck env reqAdmin netname token w
             = ((Some "This network does not exist", [], ""),
                mkWorld (networks w) (calls w ++ [call_NetworkExists netname]))).
  { intros r t. unfold SecurityCheck. go_run. rewrite Hexists.
    destruct (String.eqb_spec netname "") as [Heq|_]; [contradiction|].
    reflexivity. }
  split; [apply Hrun|]. split.
  - rewrite Hrun. go_calls. reflexivity.
  - intros r t. rewrite !Hrun. reflexivity.
Qed.

Lemma SecurityCheck_network_not_found_witness :
  SecurityCheck (demo.env 0) true "net9" "Bearer master" (demo.world [demo.net1])
  = ((Some "This network does not exist", [], ""),
     mkWorld [demo.net1] [call_NetworkExists "net9"]).
Proof.
  apply (SecurityCheck_network_not_found (demo.env 0) true "net9" "Bearer master"
           (demo.world [demo.net1])).
  - discriminate.
  - reflexivity.
Defined.

Lemma strings_Split_free (s : string) (sep : ascii) :
  free_of sep s = true -> strings_Split s sep = [s].
Proof.
  induction s as [|c s IH]; intros Hfree; [reflexivity|].
  simpl in *. apply andb_prop in Hfree as [Hc Hs].
  apply negb_true_iff in Hc. rewrite Hc, IH by exact Hs. reflexivity.
Qed.

Lemma strings_Split_two (scheme tok : string) (sep : ascii) :
  free_of sep scheme = true ->
  free_of sep tok = true ->
  strings_Split (String.append scheme (String sep tok)) sep = [scheme; tok].
Proof.
  intros Hscheme Htok. induction scheme as [|c scheme IH].
  - simpl. rewrite Ascii.eqb_refl, strings_Split_free by exact Htok. reflexivity.
  - simpl in *. apply andb_prop in Hscheme as [Hc Hs].
    apply negb_true_iff in Hc. rewrite Hc, IH by exact Hs. reflexivity.
Qed.

(** C1: for a credential presented as a bearer token (a scheme, a space and a
    token free of spaces), once the target-network check has passed: when the
    token is the operator secret, [SecurityCheck] grants [ALL_NETWORK_ACCESS]
    whatever the flag; when it is not and resolves to a user that is not an
    admin while an operator is required, [SecurityCheck] returns an
    unauthorized error and no networks. *)
Theorem SecurityCheck_operator_or_forbidden (env : Env) (reqAdmin : bool)
  (netname scheme tok : string) (w : World) (networkexists : bool) :
  free_of space scheme = true ->
  free_of space tok = true ->
  functions_NetworkExists env (networks w) netname = (networkexists, None) ->
  netname = "" \/ networkexists = true ->
  (tok = servercfg_GetMasterKey env ->
   fst (SecurityCheck env reqAdmin netname (String.append scheme (String space tok)) w)
   = (None, [ALL_NETWORK_ACCESS], ""))
  /\ (tok <> servercfg_GetMasterKey env ->
      forall userName userNetworks,
        functions_VerifyUserToken env (networks w) tok
        = (userName, userNetworks, false, None) ->
        fst (SecurityCheck env true netname
               (String.append scheme (String space tok)) w)
        = (Some "You are unauthorized to access this endpoint", [], userName)).
Proof.
  intros Hscheme Htok Hexists Htarget.
  assert (Hpass : negb (String.eqb netname "") && negb networkexists = false).
  { destruct Htarget as [-> | ->]; [reflexivity|apply andb_false_r]. }
  split.
  - intros Hmaster. unfold SecurityCheck, authenticateMaster. go_run.
    rewrite Hexists, Hpass, strings_Split_two by assumption.
    change (Z.of_nat (length [scheme; tok]) <? 2)%Z with false.
    cbv beta iota. cbn [nth].
    rewrite Hmaster, String.eqb_refl. reflexivity.
  - intros Hmaster userName userNetworks Hverify.
    unfold SecurityCheck, authenticateMaster. go_run.
    rewrite Hexists, Hpass, strings_Split_two by assumption.
    change (Z.of_nat (length [scheme; tok]) <? 2)%Z with false.
    cbv beta iota. cbn [nth].
    destruct (String.eqb_spec tok (servercfg_GetMasterKey env)) as [Heq|_];
      [contradiction|].
    go_run. cbn [negb orb]. go_run. rewrite Hverify. reflexivity.
Qed.

Lemma SecurityCheck_operator_or_forbidden_witness :
  fst (SecurityCheck (demo.env 0) false "net1" "Bearer master" (demo.world [demo.net1]))
  = (None, [ALL_NETWORK_ACCESS], "")
  /\ fst (SecurityCheck (demo.env 0) true "net1" "Bearer alice-token"
            (demo.world [demo.net1]))
     = (Some "You are unauthorized to access this endpoint", [], "alice").
Proof.
  split.
  - destruct (SecurityCheck_operator_or_forbidden (demo.env 0) false "net1" "Bearer"
                "master" (demo.world [demo.net1]) true) as [Hoperator _];
      [reflexivity|reflexivity|reflexivity|right; reflexivity|].
    apply Hoperator. reflexivity.
  - destruct (SecurityCheck_operator_or_forbidden (demo.env 0) true "net1" "Bearer"
                "alice-token" (demo.world [demo.net1]) true) as [_ Huser];
      [reflexivity|reflexivity|reflexivity|right; reflexivity|].
    apply (Huser ltac:(discriminate) "alice" ["net1"]). reflexivity.
Defined.

(** ** The node-limit update *)

Lemma update_first_split (netid : string) (f : Network -> Network)
  (docs : list Network) :
  (mongo.first_match netid docs = None /\ mongo.update_first netid f docs = docs)
  \/ (exists before doc after,
        docs = before ++ doc :: after
        /\ mongo.first_match netid docs = Some doc
        /\ mongo.update_first netid f docs = before ++ f doc :: after).
Proof.
  induction docs as [|doc docs IH].
  - left. split; reflexivity.
  - unfold mongo.first_match in *. simpl.
    destruct (mongo.matches netid doc) eqn:Hmatch.
    + right. exists [], doc, docs. repeat split.
    + destruct IH as [[Hnone Hsame]|(before & d & after & -> & Hfound & Hupdated)].
      * left. split; [exact Hnone|]. rewrite Hsame. reflexivity.
      * right. exists (doc :: before), d, after. rewrite Hupdated.
        repeat split. exact Hfound.
Qed.

Lemma set_field_NetID (e : bson.E) (doc : Network) :
  NetID (bson.set_field e doc) = NetID doc.
Proof. destruct e, doc; reflexivity. Qed.

Lemma set_NetID (update : bson.D) (doc : Network) :
  NetID (bson.set update doc) = NetID doc.
Proof.
  unfold bson.set. revert doc.
  induction update as [|e update IH]; intros doc; [reflexivity|].
  simpl. rewrite IH. apply set_field_NetID.
Qed.

(** After an update that keeps the NetID, the first document under a filter
    is the updated first document. *)
Lemma first_match_update_first (netid : string) (f : Network -> Network)
  (docs : list Network) :
  (forall doc, NetID (f doc) = NetID doc) ->
  mongo.first_match netid (mongo.update_first netid f docs)
  = f <$> mongo.first_match netid docs.
Proof.
  intros Hid. unfold mongo.first_match.
  induction docs as [|doc docs IH]; [reflexivity|].
  simpl. destruct (mongo.matches netid doc) eqn:Hmatch.
  - simpl. unfold mongo.matches in *. rewrite Hid, Hmatch. reflexivity.
  - simpl. rewrite Hmatch. exact IH.
Qed.

(** C7 (as amended): [updateNetworkNodeLimit] writes exactly one field, the
    node limit. With a non-zero node limit in the patch, once the network is
    found and the store call succeeds, its calls are the lookup, one update of
    the network's document that sets the single field [nodelimit], and the
    log line; the network's stored document is then the one before with the
    patch's node limit and every other field as it was, and no other document
    has changed. In every run the only update it can send is that one, and
    at most one document changes, in its node limit only. It does follow the
    zero-means-unchanged convention: with a zero node limit in the patch no
    update is sent and the collection is unchanged. *)
Theorem updateNetworkNodeLimit_frame (env : Env) (user netname : string)
  (patch : NetworkUpdate.t) (w : World) :
  (forall c,
     In c (calls_since w (snd (updateNetworkNodeLimit env user netname patch w))) ->
     is_persistence c = true ->
     c = call_FindOneAndUpdate
           (NetID (fst (functions_GetParentNetwork env (networks w) netname)))
           [bson.nodelimit (NetworkUpdate.NodeLimit patch)])
  /\ (networks (snd (updateNetworkNodeLimit env user netname patch w)) = networks w
      \/ exists before doc after,
           networks w = before ++ doc :: after
           /\ networks (snd (updateNetworkNodeLimit env user netname patch w))
              = before
                ++ mkNetwork (NetID doc) (AddressRange doc) (AddressRange6 doc)
                     (DisplayName doc) (DefaultListenPort doc) (DefaultPostUp doc)
                     (DefaultPostDown doc) (DefaultKeepalive doc)
                     (KeyUpdateTimeStamp doc) (DefaultSaveConfig doc)
                     (DefaultInterface doc) (NodesLastModified doc)
                     (NetworkLastModified doc) (AllowManualSignUp doc)
                     (DefaultCheckInInterval doc) (LocalRange doc) (IsLocal doc)
                     (IsDualStack doc) (NetworkUpdate.NodeLimit patch)
                     (AccessKeys doc)
                :: after)
  /\ (NetworkUpdate.NodeLimit patch = 0 ->
      networks (snd (updateNetworkNodeLimit env user netname patch w)) = networks w
      /\ existsb is_persistence
           (calls_since w (snd (updateNetworkNodeLimit env user netname patch w)))
         = false)
  /\ (forall network doc,
        functions_GetParentNetwork env (networks w) netname = (network, None) ->
        NetworkUpdate.NodeLimit patch <> 0 ->
        mongo_fault env
          (call_FindOneAndUpdate (NetID network)
             [bson.nodelimit (NetworkUpdate.NodeLimit patch)]) (networks w) = None ->
        mongo.first_match (NetID network) (networks w) = Some doc ->
        calls_since w (snd (updateNetworkNodeLimit env user netname patch w))
        = [call_GetParentNetwork netname;
           call_FindOneAndUpdate (NetID network)
             [bson.nodelimit (NetworkUpdate.NodeLimit patch)];
           call_PrintUserLog user
             (String.append "updated network node limit on, " netname) 1]
        /\ mongo.first_match (NetID network)
             (networks (snd (updateNetworkNodeLimit env user netname patch w)))
           = Some (mkNetwork (NetID doc) (AddressRange doc) (AddressRange6 doc)
                     (DisplayName doc) (DefaultListenPort doc) (DefaultPostUp doc)
                     (DefaultPostDown doc) (DefaultKeepalive doc)
                     (KeyUpdateTimeStamp doc) (DefaultSaveConfig doc)
                     (DefaultInterface doc) (NodesLastModified doc)
                     (NetworkLastModified doc) (AllowManualSignUp doc)
                     (DefaultCheckInInterval doc) (LocalRange doc) (IsLocal doc)
                     (IsDualStack doc) (NetworkUpdate.NodeLimit patch)
                     (AccessKeys doc))
        /\ exists before after,
             networks w = before ++ doc :: after
             /\ networks (snd (updateNetworkNodeLimit env user netname patch w))
                = before
                  ++ mkNetwork (NetID doc) (AddressRange doc) (AddressRange6 doc)
                       (DisplayName doc) (DefaultListenPort doc) (DefaultPostUp doc)
                       (DefaultPostDown doc) (DefaultKeepalive doc)
                       (KeyUpdateTimeStamp doc) (DefaultSaveConfig doc)
                       (DefaultInterface doc) (NodesLastModified doc)
                       (NetworkLastModified doc) (AllowManualSignUp doc)
                       (DefaultCheckInInterval doc) (LocalRange doc) (IsLocal doc)
                       (IsDualStack doc) (NetworkUpdate.NodeLimit patch)
                       (AccessKeys doc)
                  :: after).
Proof.
  split; [|split; [|split]].
  - unfold updateNetworkNodeLimit.
    go_cases; go_calls; intros c Hin Hpersist;
      repeat (destruct Hin as [<-|Hin]; [try discriminate Hpersist|]);
      try contradiction; reflexivity.
  - unfold updateNetworkNodeLimit. go_run.
    destruct (functions_GetParentNetwork env (networks w) netname) as [net [e|]];
      [left; reflexivity|].
    destruct (nonzero (NetworkUpdate.NodeLimit patch)); go_run;
      [|left; reflexivity].
    destruct (mongo_fault env _ (networks w)) as [e|]; [left; reflexivity|].
    destruct (update_first_split (NetID net)
                (bson.set [bson.nodelimit (NetworkUpdate.NodeLimit patch)])
                (networks w))
      as [[Hnone _]|(before & doc & after & Hsplit & Hfound & Hupdated)].
    + rewrite Hnone. left. reflexivity.
    + rewrite Hfound. go_run. right. exists before, doc, after.
      split; [exact Hsplit|]. rewrite Hupdated. destruct doc. reflexivity.
  - intros Hzero. unfold updateNetworkNodeLimit. rewrite Hzero.
    change (nonzero 0) with false.
    go_cases; go_calls; split; reflexivity.
  - intros net doc Hget Hlimit Hfault Hdoc.
    assert (Hnonzero : nonzero (NetworkUpdate.NodeLimit patch) = true).
    { unfold nonzero. destruct (Z.eqb_spec (NetworkUpdate.NodeLimit patch) 0);
        [contradiction|reflexivity]. }
    unfold updateNetworkNodeLimit. go_run. rewrite Hget, Hnonzero. go_run.
    rewrite Hfault, Hdoc. go_run.
    split; [go_calls; reflexivity|]. split.
    + rewrite first_match_update_first by (intros d; apply set_NetID).
      rewrite Hdoc. destruct doc. reflexivity.
    + destruct (update_first_split (NetID net)
                  (bson.set [bson.nodelimit (NetworkUpdate.NodeLimit patch)])
                  (networks w))
        as [[Hnone _]|(before & doc' & after & Hsplit & Hfound & Hupdated)];
        [congruence|].
      rewrite Hdoc in Hfound. injection Hfound as <-.
      exists before, after. split; [exact Hsplit|].
      rewrite Hupdated. destruct doc. reflexivity.
Qed.

Lemma updateNetworkNodeLimit_frame_witness :
  (NodeLimit demo.net1 = 5
   /\ calls_since (demo.world [demo.comms; demo.net1])
        (snd (updateNetworkNodeLimit (demo.env 0) "admin" "net1"
                (demo.patch_nodelimit "net1" 9) (demo.world [demo.comms; demo.net1])))
      = [call_GetParentNetwork "net1";
         call_FindOneAndUpdate "net1" [bson.nodelimit 9];
         call_PrintUserLog "admin" "updated network node limit on, net1" 1]
   /\ networks
        (snd (updateNetworkNodeLimit (demo.env 0) "admin" "net1"
                (demo.patch_nodelimit "net1" 9) (demo.world [demo.comms; demo.net1])))
      = [demo.comms; with_NodeLimit 9 demo.net1])
  /\ networks (snd (updateNetworkNodeLimit (demo.env 0) "admin" "net1"
                      (demo.patch_nodelimit "net1" 0) (demo.world [demo.net1])))
     = [demo.net1]
  /\ existsb is_persistence
       (calls_since (demo.world [demo.net1])
          (snd (updateNetworkNodeLimit (demo.env 0) "admin" "net1"
                  (demo.patch_nodelimit "net1" 0) (demo.world [demo.net1]))))
     = false.
Proof.
  split.
  - destruct (updateNetworkNodeLimit_frame (demo.env 0) "admin" "net1"
                (demo.patch_nodelimit "net1" 9) (demo.world [demo.comms; demo.net1]))
      as (_ & _ & _ & Hwrite).
    destruct (Hwrite demo.net1 demo.net1) as (Hcalls & _ & _).
    + reflexivity.
    + discriminate.
    + reflexivity.
    + reflexivity.
    + split; [reflexivity|]. split; [exact Hcalls|reflexivity].
  - destruct (updateNetworkNodeLimit_frame (demo.env 0) "admin" "net1"
                (demo.patch_nodelimit "net1" 0) (demo.world [demo.net1]))
      as (_ & _ & Hzero & _).
    apply Hzero. reflexivity.
Defined.

(** C7 (as stated) fails: with node limit 5 stored and a patch whose node
    limit is zero, the stored node limit is still 5 afterwards: the zero is
    not applied. *)
Lemma updateNetworkNodeLimit_zero_counterexample :
  NodeLimit demo.net1 = 5
  /\ ~ (NodeLimit
          <$> mongo.first_match "net1"
                (networks
                   (snd (updateNetworkNodeLimit (demo.env 0) "admin" "net1"
                           (demo.patch_nodelimit "net1" 0)
                           (demo.world [demo.net1]))))
        = Some (NetworkUpdate.NodeLimit (demo.patch_nodelimit "net1" 0))).
Proof.
  split; [reflexivity|]. vm_compute. discriminate.
Qed.

(** ** Access-key issuance *)

(** C8: when the name of the key to issue, as given or else as generated, is
    the name of a key already in the network's stored key list,
    [CreateAccessKey] returns the error "Duplicate AccessKey Name" with the
    zero key and sends the store no update: the collection, and with it the
    key list and its length, is unchanged. *)
Theorem CreateAccessKey_duplicate_name (env : Env) (accesskey : AccessKey)
  (network : Network) (w : World) (doc : Network) :
  mongo_fault env (call_FindOne (NetID network)) (networks w) = None ->
  mongo.first_match (NetID network) (networks w) = Some doc ->
  In (if String.eqb (Name accesskey) ""
      then functions_GenKeyName env (networks w) else Name accesskey)
     (map Name (AccessKeys doc)) ->
  fst (CreateAccessKey env accesskey network w)
  = (AccessKey_zero, Some "Duplicate AccessKey Name")
  /\ networks (snd (CreateAccessKey env accesskey network w)) = networks w
  /\ existsb is_persistence
       (calls_since w (snd (CreateAccessKey env accesskey network w))) = false
  /\ (AccessKeys
        <$> mongo.first_match (NetID network)
              (networks (snd (CreateAccessKey env accesskey network w))))
     = Some (AccessKeys doc).
Proof.
  intros Hfault Hdoc Hdup.
  assert (Hexists :
            existsb
              (fun key =>
                 String.eqb (Name key)
                   (if String.eqb (Name accesskey) ""
                    then functions_GenKeyName env (networks w) else Name accesskey))
              (AccessKeys doc) = true).
  { apply existsb_exists. apply in_map_iff in Hdup as (key & Hname & Hin).
    exists key. split; [exact Hin|]. apply String.eqb_eq. exact Hname. }
  unfold CreateAccessKey, GetKeys.
  destruct (String.eqb (Name accesskey) "");
    destruct (String.eqb (Value accesskey) "");
    go_run; rewrite Hfault, Hdoc; go_run; cbn [Name]; rewrite Hexists;
    go_calls; cbn [networks]; rewrite ?Hdoc; repeat split.
Qed.

Lemma CreateAccessKey_duplicate_name_witness :
  fst (CreateAccessKey (demo.env 0) (mkAccessKey "laptop" "" "" 0) demo.net1
         (demo.world [with_AccessKeys [demo.key1] demo.net1]))
  = (AccessKey_zero, Some "Duplicate AccessKey Name")
  /\ networks
       (snd (CreateAccessKey (demo.env 0) (mkAccessKey "laptop" "" "" 0) demo.net1
               (demo.world [with_AccessKeys [demo.key1] demo.net1])))
     = [with_AccessKeys [demo.key1] demo.net1].
Proof.
  destruct (CreateAccessKey_duplicate_name (demo.env 0)
              (mkAccessKey "laptop" "" "" 0) demo.net1
              (demo.world [with_AccessKeys [demo.key1] demo.net1])
              (with_AccessKeys [demo.key1] demo.net1))
    as (Herr & Hsame & _).
  - reflexivity.
  - reflexivity.
  - left. reflexivity.
  - split; [exact Herr|exact Hsame].
Defined.

(** ** The middleware and the routes *)

Ltac go_gate :=
  cbv beta delta [handlers.route handlers.securityCheck bind ret] iota zeta.

(** A grant of [SecurityCheck] names at least one network, and the check
    leaves the collection alone. *)
Lemma SecurityCheck_granted (env : Env) (reqAdmin : bool) (netname token : string)
  (w w' : World) (userNetworks : list string) (username : string) :
  SecurityCheck env reqAdmin netname token w = ((None, userNetworks, username), w') ->
  userNetworks <> [] /\ networks w' = networks w.
Proof.
  unfold SecurityCheck, authenticateMaster, SecurityCheck_return, errors_New.
  go_cases; intros [= <- <- <-]; (split; [|reflexivity]);
    try discriminate;
    try (intros Happ; apply app_eq_nil in Happ as [_ [=]]);
    intros ->; discriminate.
Qed.

Lemma SecurityCheck_networks (env : Env) (reqAdmin : bool) (netname token : string)
  (w : World) :
  networks (snd (SecurityCheck env reqAdmin netname token w)) = networks w.
Proof.
  unfold SecurityCheck, authenticateMaster, SecurityCheck_return, errors_New.
  go_cases; reflexivity.
Qed.

(** X2: whenever [SecurityCheck] grants access, the list of networks it
    returns is not empty: it is [ALL_NETWORK_ACCESS] alone, or the user's own
    networks, or [NO_NETWORKS_PRESENT] alone. Whatever it returns, it has not
    written to the collection. *)
Theorem SecurityCheck_grant_never_empty (env : Env) (reqAdmin : bool)
  (netname token : string) (w : World) :
  networks (snd (SecurityCheck env reqAdmin netname token w)) = networks w
  /\ existsb is_persistence
       (calls_since w (snd (SecurityCheck env reqAdmin netname token w))) = false
  /\ forall userNetworks username,
       fst (SecurityCheck env reqAdmin netname token w)
       = (None, userNetworks, username) ->
       userNetworks <> []
       /\ (userNetworks = [ALL_NETWORK_ACCESS]
           \/ userNetworks = [NO_NETWORKS_PRESENT]
           \/ exists authToken,
                userNetworks
                = snd (fst (fst (functions_VerifyUserToken env (networks w) authToken)))).
Proof.
  split; [apply SecurityCheck_networks|]. split.
  - unfold SecurityCheck, authenticateMaster, SecurityCheck_return, errors_New.
    go_cases; go_calls; reflexivity.
  - intros userNetworks username Hrun. split.
    + destruct (SecurityCheck env reqAdmin netname token w) as [[[err nets] user] w']
        eqn:Hsc.
      cbn [fst] in Hrun. injection Hrun as -> -> ->.
      apply SecurityCheck_granted in Hsc. apply Hsc.
    + revert Hrun.
      unfold SecurityCheck, authenticateMaster, SecurityCheck_return, errors_New.
      go_cases; cbn [fst]; intros [= <- <-]; auto;
        match goal with
        | H : (Z.of_nat (length _) =? 0)%Z = _ |- _ => cbn in H; discriminate H
        | H : (Z.of_nat (length ?l) =? 0)%Z = true |- _ =>
            destruct l; [auto|discriminate H]
        | H : functions_VerifyUserToken _ _ ?t = _ |- _ =>
            right; right; exists t; rewrite H; reflexivity
        end.
Qed.

Lemma SecurityCheck_grant_never_empty_witness :
  ["net1"] <> []
  /\ (["net1"] = [ALL_NETWORK_ACCESS]
      \/ ["net1"] = [NO_NETWORKS_PRESENT]
      \/ exists authToken,
           ["net1"]
           = snd (fst (fst (functions_VerifyUserToken (demo.env 0) [demo.net1]
                              authToken)))).
Proof.
  destruct (SecurityCheck_grant_never_empty (demo.env 0) false "net1"
              "Bearer alice-token" (demo.world [demo.net1])) as (_ & _ & Hgrant).
  apply (Hgrant ["net1"] "alice"). reflexivity.
Defined.

(** X3: every response with which the middleware rejects a request carries
    status 401 or 404, and 404 only with a message that contains "does not
    exist"; a request for a named network that the existence lookup reports
    absent is rejected with 404 and "This network does not exist". The
    middleware never writes to the collection. *)
Theorem securityCheck_rejection_status (env : Env) (lib : handlers.Lib)
  (reqAdmin : bool) (networkname bearerToken : string) (w : World) :
  (forall errorResponse,
     fst (handlers.securityCheck env lib reqAdmin networkname bearerToken w)
     = handlers.Rejected errorResponse ->
     (handlers.ErrorResponse.Code errorResponse = 401
      \/ handlers.ErrorResponse.Code errorResponse = 404)
     /\ (handlers.ErrorResponse.Code errorResponse = 404 ->
         strings_Contains (handlers.ErrorResponse.Message errorResponse)
           "does not exist" = true))
  /\ (networkname <> "" ->
      functions_NetworkExists env (networks w) networkname = (false, None) ->
      fst (handlers.securityCheck env lib reqAdmin networkname bearerToken w)
      = handlers.Rejected
          (handlers.ErrorResponse.mk 404 "This network does not exist"))
  /\ networks (snd (handlers.securityCheck env lib reqAdmin networkname bearerToken w))
     = networks w.
Proof.
  split; [|split].
  - intros errorResponse. go_gate.
    destruct (SecurityCheck env reqAdmin networkname bearerToken w)
      as [[[[e|] nets] user] w'].
    + destruct (strings_Contains e "does not exist") eqn:Hcontains;
        cbn [fst handlers.ErrorResponse.Code handlers.ErrorResponse.Message];
        intros [= <-]; cbn [handlers.ErrorResponse.Code handlers.ErrorResponse.Message];
        (split; [auto|]); [intros _; exact Hcontains|discriminate].
    + destruct (handlers.json_Marshal_networks lib nets) as [j [e|]];
        cbn [fst]; intros [= <-];
        cbn [handlers.ErrorResponse.Code handlers.ErrorResponse.Message];
        (split; [auto|discriminate]).
  - intros Hname Hexists. go_gate.
    unfold SecurityCheck. go_run. rewrite Hexists.
    destruct (String.eqb_spec networkname "") as [Heq|_]; [contradiction|].
    reflexivity.
  - go_gate. rewrite <- (SecurityCheck_networks env reqAdmin networkname bearerToken w).
    destruct (SecurityCheck env reqAdmin networkname bearerToken w)
      as [[[[e|] nets] user] w']; [reflexivity|].
    destruct (handlers.json_Marshal_networks lib nets) as [j [e|]]; reflexivity.
Qed.

Lemma securityCheck_rejection_status_witness :
  fst (handlers.securityCheck (demo.env 0) demo_handlers.lib false "net9"
         "Bearer master" (demo.world [demo.net1]))
  = handlers.Rejected (handlers.ErrorResponse.mk 404 "This network does not exist").
Proof.
  destruct (securityCheck_rejection_status (demo.env 0) demo_handlers.lib false
              "net9" "Bearer master" (demo.world [demo.net1])) as (_ & Habsent & _).
  apply Habsent.
  - discriminate.
  - reflexivity.
Defined.

(** The run of [SecurityCheck] for a bearer token that is not the operator
    secret and that [VerifyUserToken] resolves to a user who is not an admin. *)
Lemma SecurityCheck_user (env : Env) (reqAdmin : bool)
  (netname scheme tok : string) (w : World) (networkexists : bool)
  (userName : string) (userNetworks : list string) :
  free_of space scheme = true ->
  free_of space tok = true ->
  functions_NetworkExists env (networks w) netname = (networkexists, None) ->
  netname = "" \/ networkexists = true ->
  tok <> servercfg_GetMasterKey env ->
  functions_VerifyUserToken env (networks w) tok
  = (userName, userNetworks, false, None) ->
  SecurityCheck env reqAdmin netname (String.append scheme (String space tok)) w
  = ((if reqAdmin
      then (Some "You are unauthorized to access this endpoint", [], userName)
      else (None,
            match userNetworks with
            | [] => [NO_NETWORKS_PRESENT]
            | _ => userNetworks
            end, userName)),
     mkWorld (networks w)
       (calls w ++ [call_NetworkExists netname; call_GetMasterKey;
                    call_VerifyUserToken tok])).
Proof.
  intros Hscheme Htok Hexists Htarget Hmaster Hverify.
  assert (Hpass : negb (String.eqb netname "") && negb networkexists = false).
  { destruct Htarget as [-> | ->]; [reflexivity|apply andb_false_r]. }
  unfold SecurityCheck, authenticateMaster, SecurityCheck_return. go_run.
  rewrite Hexists, Hpass, strings_Split_two by assumption.
  change (Z.of_nat (length [scheme; tok]) <? 2)%Z with false.
  cbv beta iota. cbn [nth].
  destruct (String.eqb_spec tok (servercfg_GetMasterKey env)) as [Heq|_];
    [contradiction|].
  go_run. cbn [negb orb]. go_run. rewrite Hverify. cbn [negb andb].
  rewrite <- !app_assoc. cbn [app].
  destruct reqAdmin; [reflexivity|].
  destruct userNetworks; reflexivity.
Qed.

(** X4: on a route registered with [securityCheck(true, ...)], as the one
    that deletes a network, a bearer token that resolves to a user who is not
    an admin is answered 401 "You are unauthorized to access this endpoint";
    the handler behind the middleware is not run, so nothing it would do to
    the collection happens. *)
Theorem route_admin_only {A : Type} (env : Env) (lib : handlers.Lib)
  (netname scheme tok : string) (next : string -> string -> M (Response A))
  (w : World) (networkexists : bool) (userName : string)
  (userNetworks : list string) :
  free_of space scheme = true ->
  free_of space tok = true ->
  functions_NetworkExists env (networks w) netname = (networkexists, None) ->
  netname = "" \/ networkexists = true ->
  tok <> servercfg_GetMasterKey env ->
  functions_VerifyUserToken env (networks w) tok
  = (userName, userNetworks, false, None) ->
  handlers.route env lib true netname (String.append scheme (String space tok)) next w
  = (inl (handlers.ErrorResponse.mk 401
            "You are unauthorized to access this endpoint"),
     mkWorld (networks w)
       (calls w ++ [call_NetworkExists netname; call_GetMasterKey;
                    call_VerifyUserToken tok])).
Proof.
  intros Hscheme Htok Hexists Htarget Hmaster Hverify. go_gate.
  rewrite (SecurityCheck_user env true netname scheme tok w networkexists
             userName userNetworks) by assumption.
  reflexivity.
Qed.

Lemma route_admin_only_witness :
  handlers.route (demo.env 0) demo_handlers.lib true "net1" "Bearer alice-token"
    (fun user _ => handlers.deleteNetwork (demo.env 0) user "net1")
    (demo.world [demo.net1])
  = (inl (handlers.ErrorResponse.mk 401
            "You are unauthorized to access this endpoint"),
     mkWorld [demo.net1]
       [call_NetworkExists "net1"; call_GetMasterKey;
        call_VerifyUserToken "alice-token"]).
Proof.
  apply (route_admin_only (demo.env 0) demo_handlers.lib "net1" "Bearer"
           "alice-token" _ (demo.world [demo.net1]) true "alice" ["net1"]).
  - reflexivity.
  - reflexivity.
  - reflexivity.
  - right. reflexivity.
  - discriminate.
  - reflexivity.
Defined.

(** X5: on a route registered with [securityCheck(false, ...)] the handler
    is run for every verified user and every existing network, whether or
    not the network is among those granted to the user: the granted networks
    only travel in the ["networks"] header, and the handler runs in the world
    the check has left. *)
Theorem route_runs_handler_for_any_user {A : Type} (env : Env) (lib : handlers.Lib)
  (netname scheme tok : string) (next : string -> string -> M (Response A))
  (w : World) (networkexists : bool) (userName : string)
  (userNetworks : list string) (networksJson : string) :
  free_of space scheme = true ->
  free_of space tok = true ->
  functions_NetworkExists env (networks w) netname = (networkexists, None) ->
  netname = "" \/ networkexists = true ->
  tok <> servercfg_GetMasterKey env ->
  functions_VerifyUserToken env (networks w) tok
  = (userName, userNetworks, false, None) ->
  handlers.json_Marshal_networks lib
    (match userNetworks with [] => [NO_NETWORKS_PRESENT] | _ => userNetworks end)
  = (networksJson, None) ->
  handlers.route env lib false netname (String.append scheme (String space tok)) next w
  = (let (response, w') :=
       next userName networksJson
         (mkWorld (networks w)
            (calls w ++ [call_NetworkExists netname; call_GetMasterKey;
                         call_VerifyUserToken tok])) in
     (inr response, w')).
Proof.
  intros Hscheme Htok Hexists Htarget Hmaster Hverify Hjson. go_gate.
  rewrite (SecurityCheck_user env false netname scheme tok w networkexists
             userName userNetworks) by assumption.
  cbv beta iota. rewrite Hjson. reflexivity.
Qed.

Lemma route_runs_handler_for_any_user_witness :
  ~ In "net2" ["net1"]
  /\ handlers.route (demo.env 0) demo_handlers.lib false "net2" "Bearer alice-token"
       (fun user _ => handlers.getAccessKeys (demo.env 0) user "net2")
       (demo.world [demo.net1; with_AccessKeys [demo.key1] (demo.net "net2" "10.0.2.0/24")])
     = (inr (StatusOK [demo.key1]),
        mkWorld [demo.net1; with_AccessKeys [demo.key1] (demo.net "net2" "10.0.2.0/24")]
          [call_NetworkExists "net2"; call_GetMasterKey;
           call_VerifyUserToken "alice-token"; call_FindOne "net2";
           call_PrintUserLog "alice" "fetched access keys on network net2" 2]).
Proof.
  split; [intros [[=]|[]]|].
  rewrite (route_runs_handler_for_any_user (demo.env 0) demo_handlers.lib "net2"
             "Bearer" "alice-token" _ _ true "alice" ["net1"] "net1").
  - reflexivity.
  - reflexivity.
  - reflexivity.
  - reflexivity.
  - right. reflexivity.
  - discriminate.
  - reflexivity.
  - reflexivity.
Defined.

(** ** The listing of a user's own networks *)

(** The networks that [GetParentNetwork] finds among [names], in their order. *)
Definition found_networks (env : Env) (docs : list Network) (names : list string)
  : list Network :=
  flat_map (fun name =>
              match functions_GetParentNetwork env docs name with
              | (netObject, None) => [netObject]
              | (_, Some _) => []
              end) names.

Lemma getNetworks_loop_found (env : Env) (names : list string) :
  forall (allnetworks : list Network) (w : World),
    getNetworks_loop env names allnetworks w
    = (allnetworks ++ found_networks env (networks w) names,
       mkWorld (networks w) (calls w ++ map call_GetParentNetwork names)).
Proof.
  induction names as [|name names IH]; intros allnetworks w.
  - simpl. unfold ret. rewrite !app_nil_r. destruct w. reflexivity.
  - cbn [getNetworks_loop]. go_run.
    destruct (functions_GetParentNetwork env (networks w) name) as [net [e|]] eqn:Hget;
      rewrite IH; cbn [networks calls found_networks flat_map map];
      rewrite Hget, <- !app_assoc; reflexivity.
Qed.

(** X6: for a ["networks"] header that does not start with
    [ALL_NETWORK_ACCESS], [getNetworks] looks up every name of the header in
    turn, the sentinel [NO_NETWORKS_PRESENT] included, silently leaves out
    the names whose lookup fails, and answers 200 with the networks found,
    passed through [RemoveComms]; a failed lookup is never reported. *)
Theorem getNetworks_skips_failed_lookups (env : Env) (user headerNetworks : string)
  (first : string) (rest : list string) (w : World) :
  json_Unmarshal env headerNetworks = (first :: rest, None) ->
  first <> ALL_NETWORK_ACCESS ->
  getNetworks env user headerNetworks w
  = (StatusOK (RemoveComms (found_networks env (networks w) (first :: rest))),
     mkWorld (networks w)
       (calls w ++ map call_GetParentNetwork (first :: rest)
          ++ [call_PrintUserLog user "fetched networks." 2])).
Proof.
  intros Hheader Hfirst. unfold getNetworks. rewrite Hheader.
  destruct (String.eqb_spec first ALL_NETWORK_ACCESS) as [Heq|_]; [contradiction|].
  unfold bind at 1 2. rewrite getNetworks_loop_found.
  go_run. rewrite <- !app_assoc. reflexivity.
Qed.

Lemma getNetworks_skips_failed_lookups_witness :
  getNetworks (demo_handlers.env 0) "alice" "net1,net7,THIS_USER_HAS_NONE"
    (demo.world [demo.net1])
  = (StatusOK [demo.net1],
     mkWorld [demo.net1]
       [call_GetParentNetwork "net1"; call_GetParentNetwork "net7";
        call_GetParentNetwork "THIS_USER_HAS_NONE";
        call_PrintUserLog "alice" "fetched networks." 2]).
Proof.
  rewrite (getNetworks_skips_failed_lookups (demo_handlers.env 0) "alice"
             "net1,net7,THIS_USER_HAS_NONE" "net1" ["net7"; "THIS_USER_HAS_NONE"]).
  - reflexivity.
  - reflexivity.
  - discriminate.
Defined.

(** X7: behind the middleware, [getNetworks] does not panic: the header it
    indexes at position 0 was encoded from a grant of [SecurityCheck], which
    is never empty. The codec is only asked to give back the list it was
    given. *)
Theorem getNetworks_behind_gate_no_panic (env : Env) (lib : handlers.Lib)
  (bearerToken : string) (w w1 : World) (userNetworks : list string)
  (username : string) :
  SecurityCheck env false "" bearerToken w = ((None, userNetworks, username), w1) ->
  (forall networksJson,
     handlers.json_Marshal_networks lib userNetworks = (networksJson, None) ->
     json_Unmarshal env networksJson = (userNetworks, None)) ->
  fst (handlers.route env lib false "" bearerToken (getNetworks env) w) <> inr Panic.
Proof.
  intros Hcheck Hcodec. go_gate. rewrite Hcheck.
  destruct (SecurityCheck_granted _ _ _ _ _ _ _ _ Hcheck) as [Hnonempty _].
  destruct (handlers.json_Marshal_networks lib userNetworks) as [j [e|]] eqn:Hjson;
    [discriminate|].
  specialize (Hcodec j eq_refl).
  destruct (getNetworks env username j w1) as [response w2] eqn:Hget.
  cbn [fst]. intros [= ->].
  apply (f_equal fst) in Hget. cbn [fst] in Hget.
  unfold getNetworks in Hget. rewrite Hcodec in Hget.
  destruct userNetworks as [|first rest]; [contradiction|].
  unfold bind at 1 in Hget.
  destruct (if String.eqb first ALL_NETWORK_ACCESS then _ else _) as [[all [e|]] w'];
    [discriminate|].
  unfold bind, PrintUserLog, ask, ret in Hget. discriminate.
Qed.

Lemma getNetworks_behind_gate_no_panic_witness :
  fst (handlers.route (demo_handlers.env 0) demo_handlers.lib false ""
         "Bearer alice-token" (getNetworks (demo_handlers.env 0))
         (demo.world [demo.net1]))
  <> inr Panic.
Proof.
  apply (getNetworks_behind_gate_no_panic (demo_handlers.env 0) demo_handlers.lib
           "Bearer alice-token" (demo.world [demo.net1])
           (mkWorld [demo.net1]
              [call_NetworkExists ""; call_GetMasterKey;
               call_VerifyUserToken "alice-token"])
           ["net1"] "alice").
  - reflexivity.
  - intros networksJson [= <-]. reflexivity.
Defined.

(** ** What the merge of [UpdateNetwork] touches *)

Lemma if_then_haschange_set (cond : bool) (body : Merge -> Merge) (m : Merge) :
  (forall m, haschange (body m) = true) ->
  haschange (if_then cond body m) = cond || haschange m.
Proof. intros H. unfold if_then. destruct cond; [apply H|reflexivity]. Qed.

Lemma if_then_haschange_keep (cond : bool) (body : Merge -> Merge) (m : Merge) :
  (forall m, haschange (body m) = haschange m) ->
  haschange (if_then cond body m) = haschange m.
Proof. intros H. unfold if_then. destruct cond; [apply H|reflexivity]. Qed.

Ltac merge_frame := intros [[] ? ? ?]; reflexivity.

Lemma merge_field {A : Type} (p : Network -> A) (cond : bool)
  (body : Merge -> Merge) (m : Merge) :
  (forall m, p (network (body m)) = p (network m)) ->
  p (network (if_then cond body m)) = p (network m).
Proof. intros H. unfold if_then. destruct cond; [apply H|reflexivity]. Qed.

Lemma merge_haschange (patch : NetworkUpdate.t) (cur : Network) :
  haschange (UpdateNetwork_merge patch cur)
  = nonempty (NetworkUpdate.AddressRange patch)
    || nonempty (NetworkUpdate.LocalRange patch)
    || nonzero (NetworkUpdate.DefaultListenPort patch)
    || nonempty (NetworkUpdate.DefaultPostDown patch)
    || nonempty (NetworkUpdate.DefaultInterface patch)
    || nonempty (NetworkUpdate.DefaultPostUp patch)
    || nonzero (NetworkUpdate.DefaultKeepalive patch)
    || nonempty (NetworkUpdate.DisplayName patch)
    || nonzero (NetworkUpdate.DefaultCheckInInterval patch)
    || nonnil (NetworkUpdate.AllowManualSignUp patch).
Proof.
  unfold UpdateNetwork_merge. cbv zeta.
  do 8 (rewrite if_then_haschange_set by (intros []; reflexivity)).
  do 2 (rewrite if_then_haschange_keep by (intros []; reflexivity)).
  do 2 (rewrite if_then_haschange_set by (intros []; reflexivity)).
  cbn [haschange]. rewrite orb_false_r.
  generalize (nonempty (NetworkUpdate.AddressRange patch))
             (nonempty (NetworkUpdate.LocalRange patch))
             (nonzero (NetworkUpdate.DefaultListenPort patch))
             (nonempty (NetworkUpdate.DefaultPostDown patch))
             (nonempty (NetworkUpdate.DefaultInterface patch))
             (nonempty (NetworkUpdate.DefaultPostUp patch))
             (nonzero (NetworkUpdate.DefaultKeepalive patch))
             (nonempty (NetworkUpdate.DisplayName patch))
             (nonzero (NetworkUpdate.DefaultCheckInInterval patch))
             (nonnil (NetworkUpdate.AllowManualSignUp patch)).
  intros [] [] [] [] [] [] [] [] [] []; reflexivity.
Qed.

(** X8: whatever the patch, the record [UpdateNetwork] prepares keeps the
    current NetID, IPv6 address range, key-update timestamp, save-config
    flag, nodes-last-modified timestamp, node limit and access keys: the
    merge has no assignment to them, so the IPv6 range and the node limit of
    a patch are never applied by it. *)
Theorem UpdateNetwork_merged_keeps (env : Env) (patch : NetworkUpdate.t)
  (cur : Network) :
  let merged := UpdateNetwork_merged env patch cur in
  NetID merged = NetID cur
  /\ AddressRange6 merged = AddressRange6 cur
  /\ KeyUpdateTimeStamp merged = KeyUpdateTimeStamp cur
  /\ DefaultSaveConfig merged = DefaultSaveConfig cur
  /\ NodesLastModified merged = NodesLastModified cur
  /\ NodeLimit merged = NodeLimit cur
  /\ AccessKeys merged = AccessKeys cur.
Proof.
  assert (Hkeep : forall (A : Type) (p : Network -> A),
             (forall v n, p (with_NetworkLastModified v n) = p n) ->
             (forall m, p (network m) = p (network m)) ->
             p (network (UpdateNetwork_merge patch cur)) = p cur ->
             p (UpdateNetwork_merged env patch cur) = p cur).
  { intros A p Hstamp _ Hmerge.
    unfold UpdateNetwork_merged, SetNetworkLastModified. cbv zeta.
    destruct (haschange _); [rewrite Hstamp|]; exact Hmerge. }
  cbv zeta.
  repeat split; apply Hkeep;
    try (intros v []; reflexivity); try reflexivity;
    unfold UpdateNetwork_merge; cbv zeta;
    repeat (rewrite merge_field by merge_frame); reflexivity.
Qed.

(** X9: [UpdateNetwork] stamps networkLastModified with the current time
    exactly when the patch sets one of the address range, local range, listen
    port, post-down, interface, post-up, keepalive, display name, check-in
    interval or manual-signup fields. The IsLocal and IsDualStack fields of a
    patch are applied without a stamp. *)
Theorem UpdateNetwork_stamp (env : Env) (patch : NetworkUpdate.t) (cur : Network) :
  NetworkLastModified (UpdateNetwork_merged env patch cur)
  = (if nonempty (NetworkUpdate.AddressRange patch)
        || nonempty (NetworkUpdate.LocalRange patch)
        || nonzero (NetworkUpdate.DefaultListenPort patch)
        || nonempty (NetworkUpdate.DefaultPostDown patch)
        || nonempty (NetworkUpdate.DefaultInterface patch)
        || nonempty (NetworkUpdate.DefaultPostUp patch)
        || nonzero (NetworkUpdate.DefaultKeepalive patch)
        || nonempty (NetworkUpdate.DisplayName patch)
        || nonzero (NetworkUpdate.DefaultCheckInInterval patch)
        || nonnil (NetworkUpdate.AllowManualSignUp patch)
     then time_Now_Unix env else NetworkLastModified cur)
  /\ IsLocal (UpdateNetwork_merged env patch cur)
     = (if nonnil (NetworkUpdate.IsLocal patch)
        then NetworkUpdate.IsLocal patch else IsLocal cur)
  /\ IsDualStack (UpdateNetwork_merged env patch cur)
     = (if nonnil (NetworkUpdate.IsDualStack patch)
        then NetworkUpdate.IsDualStack patch else IsDualStack cur).
Proof.
  unfold UpdateNetwork_merged, SetNetworkLastModified. cbv zeta.
  rewrite merge_haschange.
  assert (Hlocal : IsLocal (network (UpdateNetwork_merge patch cur))
                   = if nonnil (NetworkUpdate.IsLocal patch)
                     then NetworkUpdate.IsLocal patch else IsLocal cur).
  { unfold UpdateNetwork_merge. cbv zeta.
    do 9 (rewrite (merge_field IsLocal) by merge_frame).
    unfold if_then at 1. destruct (nonnil (NetworkUpdate.IsLocal patch)).
    - cbn [assign network].
      match goal with |- context [with_IsLocal _ ?n] => destruct n end.
      reflexivity.
    - do 2 (rewrite (merge_field IsLocal) by merge_frame). reflexivity. }
  assert (Hdual : IsDualStack (network (UpdateNetwork_merge patch cur))
                  = if nonnil (NetworkUpdate.IsDualStack patch)
                    then NetworkUpdate.IsDualStack patch else IsDualStack cur).
  { unfold UpdateNetwork_merge. cbv zeta.
    do 8 (rewrite (merge_field IsDualStack) by merge_frame).
    unfold if_then at 1. destruct (nonnil (NetworkUpdate.IsDualStack patch)).
    - cbn [assign network].
      match goal with |- context [with_IsDualStack _ ?n] => destruct n end.
      reflexivity.
    - do 3 (rewrite (merge_field IsDualStack) by merge_frame). reflexivity. }
  assert (Hstamp : NetworkLastModified (network (UpdateNetwork_merge patch cur))
                   = NetworkLastModified cur).
  { unfold UpdateNetwork_merge. cbv zeta.
    repeat (rewrite (merge_field NetworkLastModified) by merge_frame). reflexivity. }
  destruct (_ || _).
  - split; [destruct (network _); reflexivity|]. split.
    + rewrite <- Hlocal. destruct (network _); reflexivity.
    + rewrite <- Hdual. destruct (network _); reflexivity.
  - rewrite Hstamp, Hlocal, Hdual. repeat split.
Qed.

(** ** What the store holds after an update *)

Lemma set_update_AddressRange (network doc : Network) :
  AddressRange (bson.set (UpdateNetwork_update network) doc) = AddressRange network.
Proof. destruct doc. reflexivity. Qed.

(** X10: [UpdateNetwork] does not undo what it has stored. When the patch
    carries an address range, the update reaches the store and the address
    planner then fails, [UpdateNetwork] returns the planner's error with the
    zero record, no further call is made, and the stored document keeps the
    new address range. *)
Theorem UpdateNetwork_no_rollback (env : Env) (patch : NetworkUpdate.t)
  (cur : Network) (w : World) (doc : Network) (e : error) :
  let update := UpdateNetwork_update (UpdateNetwork_merged env patch cur) in
  let stored := mongo.update_first (NetID cur) (bson.set update) (networks w) in
  NetworkUpdate.NetID patch = NetID cur ->
  NetworkUpdate.AddressRange patch <> "" ->
  mongo_fault env (call_FindOneAndUpdate (NetID cur) update) (networks w) = None ->
  mongo.first_match (NetID cur) (networks w) = Some doc ->
  functions_UpdateNetworkNodeAddresses env stored (NetID cur) = Some e ->
  UpdateNetwork env patch cur w
  = ((Network_zero, Some e),
     mkWorld stored
       (calls w ++ [call_FindOneAndUpdate (NetID cur) update;
                    call_UpdateNetworkNodeAddresses (NetID cur)]))
  /\ (AddressRange
        <$> mongo.first_match (NetID cur)
              (networks (snd (UpdateNetwork env patch cur w))))
     = Some (NetworkUpdate.AddressRange patch).
Proof.
  intros update stored Hid Hrange Hfault Hdoc Hplanner.
  assert (Hrun : UpdateNetwork env patch cur w
                 = ((Network_zero, Some e),
                    mkWorld stored
                      (calls w ++ [call_FindOneAndUpdate (NetID cur) update;
                                   call_UpdateNetworkNodeAddresses (NetID cur)]))).
  { unfold UpdateNetwork. rewrite Hid, String.eqb_refl. cbn [negb].
    rewrite merged_NetID, merge_hasrangeupdate.
    apply nonempty_true in Hrange. rewrite Hrange.
    go_run. fold update. rewrite Hfault, Hdoc. go_run.
    rewrite (first_match_NetID _ _ _ Hdoc). fold stored. rewrite Hplanner.
    rewrite <- app_assoc. reflexivity. }
  split; [exact Hrun|].
  rewrite Hrun. cbn [snd networks]. unfold stored.
  rewrite first_match_update_first by (intros d; apply set_NetID).
  rewrite Hdoc. cbn [fmap option_fmap option_map]. unfold update.
  rewrite set_update_AddressRange.
  unfold UpdateNetwork_merged, SetNetworkLastModified.
  rewrite merge_haschange.
  apply nonempty_true in Hrange. rewrite Hrange. cbn [orb].
  pose proof (merge_AddressRange patch cur) as Hmerge. rewrite Hrange in Hmerge.
  rewrite <- Hmerge. destruct (network _). reflexivity.
Qed.

Lemma UpdateNetwork_no_rollback_witness :
  fst (UpdateNetwork demo_handlers.env_planner_down
         (demo.patch_range "net1" "10.0.1.0/24") demo.net1 (demo.world [demo.net1]))
  = (Network_zero, Some "planner down")
  /\ (AddressRange
        <$> mongo.first_match "net1"
              (networks
                 (snd (UpdateNetwork demo_handlers.env_planner_down
                         (demo.patch_range "net1" "10.0.1.0/24") demo.net1
                         (demo.world [demo.net1])))))
     = Some "10.0.1.0/24".
Proof.
  destruct (UpdateNetwork_no_rollback demo_handlers.env_planner_down
              (demo.patch_range "net1" "10.0.1.0/24") demo.net1
              (demo.world [demo.net1]) demo.net1 "planner down")
    as [Hrun Hstored].
  - reflexivity.
  - discriminate.
  - reflexivity.
  - reflexivity.
  - reflexivity.
  - split; [rewrite Hrun; reflexivity|exact Hstored].
Defined.

(** X11: when no document of the collection has the network's NetID,
    [UpdateNetwork] returns the driver's "no documents" error with the zero
    record; the store call is the only call it makes, so neither address
    planner is asked even for a patch that changes the ranges, and the
    collection is unchanged. *)
Theorem UpdateNetwork_document_missing (env : Env) (patch : NetworkUpdate.t)
  (cur : Network) (w : World) :
  let update := UpdateNetwork_update (UpdateNetwork_merged env patch cur) in
  NetworkUpdate.NetID patch = NetID cur ->
  mongo_fault env (call_FindOneAndUpdate (NetID cur) update) (networks w) = None ->
  mongo.first_match (NetID cur) (networks w) = None ->
  UpdateNetwork env patch cur w
  = ((Network_zero, Some mongo.ErrNoDocuments),
     mkWorld (networks w) (calls w ++ [call_FindOneAndUpdate (NetID cur) update])).
Proof.
  intros update Hid Hfault Hdoc.
  unfold UpdateNetwork. rewrite Hid, String.eqb_refl. cbn [negb].
  rewrite merged_NetID. go_run. fold update. rewrite Hfault, Hdoc. reflexivity.
Qed.

Lemma UpdateNetwork_document_missing_witness :
  UpdateNetwork (demo.env 0) (demo.patch_range "net1" "10.0.1.0/24") demo.net1
    (demo.world [demo.comms])
  = ((Network_zero, Some mongo.ErrNoDocuments),
     mkWorld [demo.comms]
       [call_FindOneAndUpdate "net1"
          (UpdateNetwork_update
             (UpdateNetwork_merged (demo.env 0)
                (demo.patch_range "net1" "10.0.1.0/24") demo.net1))]).
Proof.
  apply (UpdateNetwork_document_missing (demo.env 0)
           (demo.patch_range "net1" "10.0.1.0/24") demo.net1
           (demo.world [demo.comms])).
  - reflexivity.
  - reflexivity.
  - reflexivity.
Defined.

(** X12: the body [updateNetworkNodeLimit] answers after a successful
    update is the document as it was before the update, so it still shows
    the old node limit, while the stored document has the new one. *)
Theorem updateNetworkNodeLimit_answers_old_document (env : Env)
  (user netname : string) (patch : NetworkUpdate.t) (w : World)
  (network doc : Network) :
  let update := [bson.nodelimit (NetworkUpdate.NodeLimit patch)] in
  functions_GetParentNetwork env (networks w) netname = (network, None) ->
  NetworkUpdate.NodeLimit patch <> 0 ->
  mongo_fault env (call_FindOneAndUpdate (NetID network) update) (networks w) = None ->
  mongo.first_match (NetID network) (networks w) = Some doc ->
  fst (updateNetworkNodeLimit env user netname patch w) = StatusOK doc
  /\ (NodeLimit
        <$> mongo.first_match (NetID network)
              (networks (snd (updateNetworkNodeLimit env user netname patch w))))
     = Some (NetworkUpdate.NodeLimit patch).
Proof.
  intros update Hget Hlimit Hfault Hdoc.
  assert (Hnonzero : nonzero (NetworkUpdate.NodeLimit patch) = true).
  { unfold nonzero. destruct (Z.eqb_spec (NetworkUpdate.NodeLimit patch) 0);
      [contradiction|reflexivity]. }
  unfold updateNetworkNodeLimit. go_run. rewrite Hget, Hnonzero. go_run.
  fold update. rewrite Hfault, Hdoc. go_run.
  split; [reflexivity|].
  rewrite first_match_update_first by (intros d; apply set_NetID).
  rewrite Hdoc. destruct doc. reflexivity.
Qed.

Lemma updateNetworkNodeLimit_answers_old_document_witness :
  NodeLimit demo.net1 = 5
  /\ fst (updateNetworkNodeLimit (demo.env 0) "admin" "net1"
            (demo.patch_nodelimit "net1" 9) (demo.world [demo.net1]))
     = StatusOK demo.net1
  /\ (NodeLimit
        <$> mongo.first_match "net1"
              (networks
                 (snd (updateNetworkNodeLimit (demo.env 0) "admin" "net1"
                         (demo.patch_nodelimit "net1" 9) (demo.world [demo.net1])))))
     = Some 9.
Proof.
  split; [reflexivity|].
  apply (updateNetworkNodeLimit_answers_old_document (demo.env 0) "admin" "net1"
           (demo.patch_nodelimit "net1" 9) (demo.world [demo.net1])
           demo.net1 demo.net1).
  - reflexivity.
  - discriminate.
  - reflexivity.
  - reflexivity.
Defined.

(** ** The handler [updateNetwork] *)

Lemma updateNetwork_fill_fields (network : Network) (patch : NetworkUpdate.t) :
  NetworkUpdate.AddressRange (handlers.updateNetwork_fill network patch)
  = (if String.eqb (NetworkUpdate.AddressRange patch) ""
     then AddressRange network else NetworkUpdate.AddressRange patch)
  /\ NetworkUpdate.NetID (handlers.updateNetwork_fill network patch)
     = (if String.eqb (NetworkUpdate.NetID patch) ""
        then NetID network else NetworkUpdate.NetID patch).
Proof.
  destruct patch as [id ar ar6 dn lp pu pd ka di ms ci lr il ds nl].
  unfold handlers.updateNetwork_fill.
  cbn [NetworkUpdate.AddressRange NetworkUpdate.AddressRange6 NetworkUpdate.NetID].
  destruct (String.eqb ar "") eqn:Har; cbn;
    destruct (String.eqb ar6 "") eqn:Har6; cbn;
    destruct (String.eqb id "") eqn:Hid; cbn;
    rewrite ?Har, ?Hid; split; reflexivity.
Qed.

Lemma UpdateNetwork_planner_called (env : Env) (patch : NetworkUpdate.t)
  (cur : Network) (w : World) :
  NetworkUpdate.NetID patch = NetID cur ->
  nonempty (NetworkUpdate.AddressRange patch) = true ->
  mongo_fault env
    (call_FindOneAndUpdate (NetID cur)
       (UpdateNetwork_update (UpdateNetwork_merged env patch cur)))
    (networks w) = None ->
  mongo.first_match (NetID cur) (networks w) <> None ->
  exists rest,
    calls (snd (UpdateNetwork env patch cur w))
    = calls w
      ++ call_FindOneAndUpdate (NetID cur)
           (UpdateNetwork_update (UpdateNetwork_merged env patch cur))
      :: call_UpdateNetworkNodeAddresses (NetID cur) :: rest.
Proof.
  intros Hid Hrange Hfault Hdoc.
  unfold UpdateNetwork. rewrite Hid, String.eqb_refl. cbn [negb].
  rewrite merged_NetID, merge_hasrangeupdate, Hrange. go_run. rewrite Hfault.
  destruct (mongo.first_match (NetID cur) (networks w)) as [doc|] eqn:Hmatch;
    [|contradiction].
  apply first_match_NetID in Hmatch. rewrite Hmatch.
  go_cases; cbn [snd calls]; rewrite <- ?app_assoc; cbn [app];
    eexists; reflexivity.
Qed.

(** X13: [updateNetwork] fills an address range missing from the request
    body with the current one before it calls [UpdateNetwork]. So a request
    that names no address range, on a network that has one, is taken for a
    range change: the merged range is the current range and yet the address
    planner is called. *)
Theorem updateNetwork_body_without_range (env : Env) (lib : handlers.Lib)
  (user netname : string) (networkChange : NetworkUpdate.t) (w : World)
  (network : Network) :
  let filled := handlers.updateNetwork_fill network networkChange in
  functions_GetParentNetwork env (networks w) netname = (network, None) ->
  NetworkUpdate.AddressRange networkChange = "" ->
  AddressRange network <> "" ->
  NetworkUpdate.NetID networkChange = ""
  \/ NetworkUpdate.NetID networkChange = NetID network ->
  handlers.validator_Struct_NetworkUpdate lib filled = None ->
  mongo_fault env
    (call_FindOneAndUpdate (NetID network)
       (UpdateNetwork_update (UpdateNetwork_merged env filled network)))
    (networks w) = None ->
  mongo.first_match (NetID network) (networks w) <> None ->
  AddressRange (UpdateNetwork_merged env filled network) = AddressRange network
  /\ In (call_UpdateNetworkNodeAddresses (NetID network))
       (calls_since w
          (snd (handlers.updateNetwork env lib user netname networkChange w))).
Proof.
  intros filled Hget Hbody Hcur Hbodyid Hvalid Hfault Hdoc.
  destruct (updateNetwork_fill_fields network networkChange) as [Hrange Hid].
  fold filled in Hrange, Hid. rewrite Hbody in Hrange. cbn in Hrange.
  assert (Hid' : NetworkUpdate.NetID filled = NetID network).
  { rewrite Hid. destruct Hbodyid as [-> | ->]; [reflexivity|].
    destruct (String.eqb (NetID network) ""); reflexivity. }
  assert (Hnonempty : nonempty (NetworkUpdate.AddressRange filled) = true).
  { rewrite Hrange. apply nonempty_true. exact Hcur. }
  split.
  - unfold UpdateNetwork_merged, SetNetworkLastModified.
    pose proof (merge_AddressRange filled network) as Hmerge.
    rewrite Hnonempty, Hrange in Hmerge. rewrite <- Hmerge.
    destruct (haschange _); [destruct (controller.network _)|]; reflexivity.
  - unfold handlers.updateNetwork, handlers.ValidateNetworkUpdate. go_run.
    rewrite Hget. cbv zeta. fold filled. rewrite Hvalid.
    destruct (UpdateNetwork_planner_called env filled network
                (mkWorld (networks w) (calls w ++ [call_GetParentNetwork netname]))
                Hid' Hnonempty Hfault Hdoc) as [rest Hcalls].
    destruct (UpdateNetwork env filled network _) as [[returned [e|]] w2];
      cbn [snd calls] in Hcalls; unfold calls_since; cbn [snd calls];
      rewrite Hcalls, <- !app_assoc, drop_app_length; cbn [app];
      right; right; left; reflexivity.
Qed.

Lemma updateNetwork_body_without_range_witness :
  AddressRange
    (UpdateNetwork_merged (demo.env 0)
       (handlers.updateNetwork_fill demo.net1 (demo.patch "")) demo.net1)
  = AddressRange demo.net1
  /\ In (call_UpdateNetworkNodeAddresses "net1")
       (calls_since (demo.world [demo.net1])
          (snd (handlers.updateNetwork (demo.env 0) demo_handlers.lib "alice" "net1"
                  (demo.patch "") (demo.world [demo.net1])))).
Proof.
  apply (updateNetwork_body_without_range (demo.env 0) demo_handlers.lib "alice"
           "net1" (demo.patch "") (demo.world [demo.net1]) demo.net1).
  - reflexivity.
  - reflexivity.
  - discriminate.
  - left. reflexivity.
  - reflexivity.
  - reflexivity.
  - simpl. discriminate.
Defined.

(** ** Deleting a network *)

Lemma delete_first_split (netid : string) (docs : list Network) (doc : Network) :
  mongo.first_match netid docs = Some doc ->
  exists before after,
    docs = before ++ doc :: after
    /\ forallb (fun d => negb (mongo.matches netid d)) before = true
    /\ mongo.delete_first netid docs = before ++ after.
Proof.
  unfold mongo.first_match.
  induction docs as [|d docs IH]; [discriminate|].
  simpl. destruct (mongo.matches netid d) eqn:Hmatch.
  - intros [= ->]. exists [], docs. repeat split.
  - intros Hfound. destruct (IH Hfound) as (before & after & -> & Hbefore & Hdel).
    exists (d :: before), after. simpl. rewrite Hmatch, Hbefore, Hdel.
    repeat split.
Qed.

(** X14: with no node left on the network, [deleteNetwork] answers 200
    with a deleted count of 1 after removing exactly one document, the first
    of the collection with that NetID; when no document has that NetID it
    still answers 200, with a count of 0 and the collection unchanged, and
    logs the deletion all the same. A negative node count passes the guard
    like zero. *)
Theorem deleteNetwork_removes_first_document (env : Env) (user network : string)
  (w : World) (nodecount : Z) :
  functions_GetNetworkNodeNumber env (networks w) network = (nodecount, None) ->
  nodecount <= 0 ->
  mongo_fault env (call_DeleteOne network) (networks w) = None ->
  calls_since w (snd (handlers.deleteNetwork env user network w))
  = [call_GetNetworkNodeNumber network; call_DeleteOne network;
     call_PrintUserLog user (String.append "deleted network " network) 1]
  /\ match mongo.first_match network (networks w) with
     | Some doc =>
         fst (handlers.deleteNetwork env user network w)
         = StatusOK (mongo.mkDeleteResult 1)
         /\ exists before after,
              networks w = before ++ doc :: after
              /\ forallb (fun d => negb (mongo.matches network d)) before = true
              /\ networks (snd (handlers.deleteNetwork env user network w))
                 = before ++ after
     | None =>
         fst (handlers.deleteNetwork env user network w)
         = StatusOK (mongo.mkDeleteResult 0)
         /\ networks (snd (handlers.deleteNetwork env user network w)) = networks w
     end.
Proof.
  intros Hcount Hle Hfault.
  unfold handlers.deleteNetwork, DeleteNetwork. go_run. rewrite Hcount.
  destruct (Z.gtb_spec nodecount 0) as [Hpos|_]; [lia|].
  go_run. rewrite Hfault.
  destruct (mongo.first_match network (networks w)) as [doc|] eqn:Hdoc; go_run.
  - split; [go_calls; reflexivity|]. split; [reflexivity|].
    apply delete_first_split. exact Hdoc.
  - split; [go_calls; reflexivity|]. split; reflexivity.
Qed.

Lemma deleteNetwork_removes_first_document_witness :
  fst (handlers.deleteNetwork (demo.env 0) "admin" "net1"
         (demo.world [demo.comms; demo.net1]))
  = StatusOK (mongo.mkDeleteResult 1)
  /\ exists before after,
       [demo.comms; demo.net1] = before ++ demo.net1 :: after
       /\ forallb (fun d => negb (mongo.matches "net1" d)) before = true
       /\ networks
            (snd (handlers.deleteNetwork (demo.env 0) "admin" "net1"
                    (demo.world [demo.comms; demo.net1])))
          = before ++ after.
Proof.
  destruct (deleteNetwork_removes_first_document (demo.env 0) "admin" "net1"
              (demo.world [demo.comms; demo.net1]) 0) as [_ Hdoc].
  - reflexivity.
  - lia.
  - reflexivity.
  - exact Hdoc.
Defined.

(** X15: the error type [deleteNetwork] answers follows the text of the
    error: "forbidden" when the node check fails, and for an error of the
    count query only when its text happens to contain "Node check failed",
    "badrequest" otherwise. In both cases the store is not asked to delete
    and the deletion is not logged. *)
Theorem deleteNetwork_error_type (env : Env) (user network : string) (w : World)
  (nodecount : Z) (err : option error) :
  functions_GetNetworkNodeNumber env (networks w) network = (nodecount, err) ->
  (err = None -> nodecount > 0 ->
   handlers.deleteNetwork env user network w
   = (ErrorResponse "forbidden"
        "Node check failed. All nodes must be deleted before deleting network",
      mkWorld (networks w) (calls w ++ [call_GetNetworkNodeNumber network])))
  /\ (forall e, err = Some e ->
      handlers.deleteNetwork env user network w
      = (ErrorResponse
           (if strings_Contains e "Node check failed"
            then "forbidden" else "badrequest") e,
         mkWorld (networks w) (calls w ++ [call_GetNetworkNodeNumber network]))).
Proof.
  intros Hcount. split.
  - intros -> Hpos. unfold handlers.deleteNetwork, DeleteNetwork. go_run.
    rewrite Hcount.
    destruct (Z.gtb_spec nodecount 0) as [_|Hle]; [|lia].
    reflexivity.
  - intros e ->. unfold handlers.deleteNetwork, DeleteNetwork. go_run.
    rewrite Hcount. reflexivity.
Qed.

Lemma deleteNetwork_error_type_witness :
  handlers.deleteNetwork (demo.env 3) "admin" "net1" (demo.world [demo.net1])
  = (ErrorResponse "forbidden"
       "Node check failed. All nodes must be deleted before deleting network",
     mkWorld [demo.net1] [call_GetNetworkNodeNumber "net1"]).
Proof.
  destruct (deleteNetwork_error_type (demo.env 3) "admin" "net1"
              (demo.world [demo.net1]) 3 None eq_refl) as [Hblocked _].
  apply Hblocked; [reflexivity|lia].
Defined.

(** ** Revoking an access key *)

Definition named (keyname : string) (key : AccessKey) : bool :=
  String.eqb (Name key) keyname.

Lemma DeleteKey_loop_filter (keyname : string) (keys : list AccessKey) :
  forall (found : bool) (updatedKeys : list AccessKey),
    handlers.DeleteKey_loop keys keyname found updatedKeys
    = (found || existsb (named keyname) keys,
       updatedKeys ++ List.filter (fun key => negb (named keyname key)) keys).
Proof.
  induction keys as [|key keys IH]; intros found updatedKeys.
  - simpl. rewrite orb_false_r, app_nil_r. reflexivity.
  - cbn [handlers.DeleteKey_loop existsb List.filter]. unfold named at 1 3.
    destruct (String.eqb (Name key) keyname); rewrite IH; cbn [negb orb].
    + rewrite orb_true_r. reflexivity.
    + rewrite <- app_assoc. reflexivity.
Qed.

(** X16: asked to revoke a key whose name no key of the network has,
    [DeleteKey] returns the error "key <name> does not exist" after the one
    lookup of the network; the store is not called and the collection is
    unchanged, and [deleteAccessKey] answers "badrequest". *)
Theorem DeleteKey_unknown_name (env : Env) (user keyname netname : string)
  (w : World) (network : Network) :
  functions_GetParentNetwork env (networks w) netname = (network, None) ->
  ~ In keyname (map Name (AccessKeys network)) ->
  handlers.DeleteKey env keyname netname w
  = (Some (String.append "key " (String.append keyname " does not exist")),
     mkWorld (networks w) (calls w ++ [call_GetParentNetwork netname]))
  /\ handlers.deleteAccessKey env user keyname netname w
     = (ErrorResponse "badrequest"
          (String.append "key " (String.append keyname " does not exist")),
        mkWorld (networks w) (calls w ++ [call_GetParentNetwork netname])).
Proof.
  intros Hget Hnone.
  assert (Hfound : existsb (named keyname) (AccessKeys network) = false).
  { apply not_true_is_false. intros Hex. apply Hnone.
    apply existsb_exists in Hex as (key & Hin & Hname).
    apply String.eqb_eq in Hname. rewrite <- Hname. apply in_map. exact Hin. }
  assert (Hrun : handlers.DeleteKey env keyname netname w
                 = (Some (String.append "key "
                            (String.append keyname " does not exist")),
                    mkWorld (networks w)
                      (calls w ++ [call_GetParentNetwork netname]))).
  { unfold handlers.DeleteKey. go_run. rewrite Hget, DeleteKey_loop_filter, Hfound.
    reflexivity. }
  split; [exact Hrun|].
  unfold handlers.deleteAccessKey, bind. rewrite Hrun. reflexivity.
Qed.

Lemma DeleteKey_unknown_name_witness :
  handlers.DeleteKey (demo.env 0) "phone" "net1"
    (demo.world [with_AccessKeys [demo.key1] demo.net1])
  = (Some "key phone does not exist",
     mkWorld [with_AccessKeys [demo.key1] demo.net1] [call_GetParentNetwork "net1"]).
Proof.
  apply (DeleteKey_unknown_name (demo.env 0) "admin" "phone" "net1"
           (demo.world [with_AccessKeys [demo.key1] demo.net1])
           (with_AccessKeys [demo.key1] demo.net1)).
  - reflexivity.
  - simpl. intros [[=]|[]].
Defined.

Lemma set_accesskeys (keys : list AccessKey) (doc : Network) :
  AccessKeys (bson.set [bson.accesskeys keys] doc) = keys.
Proof. destruct doc. reflexivity. Qed.

(** X17: revoking a key by a name that some key of the network has stores
    the network's keys without every key of that name, the others in their
    order: no key of that name is left, also when several had it. The list
    that is filtered is the one [GetParentNetwork] returned. *)
Theorem DeleteKey_removes_every_key_of_name (env : Env) (keyname netname : string)
  (w : World) (network doc : Network) :
  let updatedKeys :=
    List.filter (fun key => negb (named keyname key)) (AccessKeys network) in
  functions_GetParentNetwork env (networks w) netname = (network, None) ->
  In keyname (map Name (AccessKeys network)) ->
  mongo_fault env (call_FindOneAndUpdate netname [bson.accesskeys updatedKeys])
    (networks w) = None ->
  mongo.first_match netname (networks w) = Some doc ->
  fst (handlers.DeleteKey env keyname netname w) = None
  /\ (AccessKeys
        <$> mongo.first_match netname
              (networks (snd (handlers.DeleteKey env keyname netname w))))
     = Some updatedKeys
  /\ ~ In keyname (map Name updatedKeys)
  /\ (forall key, In key (AccessKeys network) -> Name key <> keyname ->
      In key updatedKeys).
Proof.
  intros updatedKeys Hget Hin Hfault Hdoc.
  assert (Hfound : existsb (named keyname) (AccessKeys network) = true).
  { apply existsb_exists. apply in_map_iff in Hin as (key & Hname & Hkey).
    exists key. split; [exact Hkey|]. apply String.eqb_eq. exact Hname. }
  unfold handlers.DeleteKey. go_run.
  rewrite Hget, DeleteKey_loop_filter, Hfound. cbn [orb negb app].
  fold updatedKeys. go_run. rewrite Hfault, Hdoc. go_run.
  split; [reflexivity|]. split; [|split].
  - rewrite first_match_update_first by (intros d; apply set_NetID).
    rewrite Hdoc. cbn [fmap option_fmap option_map]. rewrite set_accesskeys.
    reflexivity.
  - intros Hleft. apply in_map_iff in Hleft as (key & Hname & Hkey).
    apply filter_In in Hkey as [_ Hkept]. unfold named in Hkept.
    rewrite Hname, String.eqb_refl in Hkept. discriminate.
  - intros key Hkey Hname. apply filter_In. split; [exact Hkey|].
    unfold named. destruct (String.eqb_spec (Name key) keyname);
      [contradiction|reflexivity].
Qed.

Lemma DeleteKey_removes_every_key_of_name_witness :
  fst (handlers.DeleteKey (demo.env 0) "laptop" "net1"
         (demo.world
            [with_AccessKeys [demo.key1; demo_handlers.key2; demo.key1] demo.net1]))
  = None
  /\ (AccessKeys
        <$> mongo.first_match "net1"
              (networks
                 (snd (handlers.DeleteKey (demo.env 0) "laptop" "net1"
                         (demo.world
                            [with_AccessKeys
                               [demo.key1; demo_handlers.key2; demo.key1]
                               demo.net1])))))
     = Some [demo_handlers.key2].
Proof.
  destruct (DeleteKey_removes_every_key_of_name (demo.env 0) "laptop" "net1"
              (demo.world
                 [with_AccessKeys [demo.key1; demo_handlers.key2; demo.key1]
                    demo.net1])
              (with_AccessKeys [demo.key1; demo_handlers.key2; demo.key1] demo.net1)
              (with_AccessKeys [demo.key1; demo_handlers.key2; demo.key1] demo.net1))
    as (Hok & Hstored & _).
  - reflexivity.
  - left. reflexivity.
  - reflexivity.
  - reflexivity.
  - split; [exact Hok|exact Hstored].
Defined.

(** ** Issuing an access key *)

Lemma existsb_Name_false (name : string) (keys : list AccessKey) :
  existsb (fun key => String.eqb (Name key) name) keys = false ->
  ~ In name (map Name keys).
Proof.
  intros Hnone Hin. apply in_map_iff in Hin as (key & Hname & Hkey).
  assert (Hex : existsb (fun key => String.eqb (Name key) name) keys = true).
  { apply existsb_exists. exists key. split; [exact Hkey|].
    apply String.eqb_eq. exact Hname. }
  congruence.
Qed.

(** X18: whenever [CreateAccessKey] returns a key without error, the key
    has the given name and secret, or generated ones where they were empty,
    and a use count that is the given one or 1 where that was zero; its name
    is the name of no key the store held for the network; the validator has
    accepted it; and the store then holds, for the network, the key list of
    the record passed in followed by the new key. *)
Theorem CreateAccessKey_issues_key (env : Env) (accesskey : AccessKey)
  (network : Network) (w w' : World) (key : AccessKey) :
  CreateAccessKey env accesskey network w = ((key, None), w') ->
  Name key = (if String.eqb (Name accesskey) ""
              then functions_GenKeyName env (networks w) else Name accesskey)
  /\ Value key = (if String.eqb (Value accesskey) ""
                  then functions_GenKey env (networks w) else Value accesskey)
  /\ Uses key = (if (Uses accesskey =? 0)%Z then 1 else Uses accesskey)
  /\ Uses key <> 0
  /\ validator_Struct env key = None
  /\ (exists doc,
        mongo.first_match (NetID network) (networks w) = Some doc
        /\ ~ In (Name key) (map Name (AccessKeys doc)))
  /\ (AccessKeys <$> mongo.first_match (NetID network) (networks w'))
     = Some (AccessKeys network ++ [key]).
Proof.
  destruct network as [id ar ar6 dn lp pu pd ka ts sc di nm lm ms ci lr il ds nl ks].
  unfold CreateAccessKey, GetKeys, errors_New.
  cbn [NetID AccessKeys with_AccessKeys IsLocal LocalRange].
  go_cases; intros [= <- <-]; cbn [Name Value Uses networks] in *;
    repeat match goal with
    | |- _ /\ _ => split
    | |- _ = _ => first [reflexivity | assumption]
    | |- _ <> _ => first [discriminate | apply Z.eqb_neq; assumption]
    end.
  all: try (eexists; split; [reflexivity|];
            apply existsb_Name_false; assumption).
  all: rewrite first_match_update_first by (intros d; apply set_NetID);
    match goal with
    | H : mongo.first_match _ _ = Some _ |- _ => rewrite H
    end; cbn [fmap option_fmap option_map]; rewrite set_accesskeys; reflexivity.
Qed.

Lemma CreateAccessKey_issues_key_witness :
  Name (mkAccessKey "key-generated" "secret-generated" "{}" 1) = "key-generated"
  /\ Uses (mkAccessKey "key-generated" "secret-generated" "{}" 1) <> 0
  /\ (AccessKeys
        <$> mongo.first_match (NetID demo.net1)
              (networks
                 (mkWorld
                    [with_AccessKeys
                       [mkAccessKey "key-generated" "secret-generated" "{}" 1]
                       demo.net1]
                    [call_GenKeyName; call_GenKey; call_FindOne "net1";
                     call_GetServerConfig; call_GetWGConfig;
                     call_FindOneAndUpdate "net1"
                       [bson.accesskeys
                          [mkAccessKey "key-generated" "secret-generated" "{}" 1]]])))
     = Some (AccessKeys demo.net1
             ++ [mkAccessKey "key-generated" "secret-generated" "{}" 1]).
Proof.
  destruct (CreateAccessKey_issues_key (demo.env 0) AccessKey_zero demo.net1
              (demo.world [demo.net1])
              (mkWorld
                 [with_AccessKeys
                    [mkAccessKey "key-generated" "secret-generated" "{}" 1]
                    demo.net1]
                 [call_GenKeyName; call_GenKey; call_FindOne "net1";
                  call_GetServerConfig; call_GetWGConfig;
                  call_FindOneAndUpdate "net1"
                    [bson.accesskeys
                       [mkAccessKey "key-generated" "secret-generated" "{}" 1]]])
              (mkAccessKey "key-generated" "secret-generated" "{}" 1))
    as (Hname & _ & _ & Huses & _ & _ & Hstored).
  - reflexivity.
  - split; [exact Hname|]. split; [exact Huses|exact Hstored].
Defined.

Lemma CreateAccessKey_stored (env : Env) (accesskey : AccessKey)
  (network : Network) (w w' : World) (key : AccessKey) :
  CreateAccessKey env accesskey network w = ((key, None), w') ->
  (AccessKeys <$> mongo.first_match (NetID network) (networks w'))
  = Some (AccessKeys network ++ [key]).
Proof.
  destruct network as [id ar ar6 dn lp pu pd ka ts sc di nm lm ms ci lr il ds nl ks].
  unfold CreateAccessKey, GetKeys, errors_New.
  cbn [NetID AccessKeys with_AccessKeys IsLocal LocalRange].
  go_cases; intros [= <- <-]; cbn [Name Value Uses networks] in *;
    rewrite first_match_update_first by (intros d; apply set_NetID);
    match goal with
    | H : mongo.first_match _ _ = Some _ |- _ => rewrite H
    end; cbn [fmap option_fmap option_map]; rewrite set_accesskeys; reflexivity.
Qed.

Lemma filter_other_names (keyname : string) (keys : list AccessKey) :
  ~ In keyname (map Name keys) ->
  List.filter (fun key => negb (named keyname key)) keys = keys.
Proof.
  induction keys as [|key keys IH]; intros Hnone; [reflexivity|].
  simpl in *. unfold named at 1.
  destruct (String.eqb_spec (Name key) keyname) as [Heq|_].
  - exfalso. apply Hnone. left. exact Heq.
  - cbn [negb]. rewrite IH; [reflexivity|]. intros Hin. apply Hnone. right. exact Hin.
Qed.

(** X19: issuing a key and then revoking it by name gives back the key list
    the network had: when [CreateAccessKey] has returned a key whose name no
    key of the record passed in had, and [GetParentNetwork] then returns the
    stored document, [DeleteKey] by that name stores exactly the key list of
    the record passed in. *)
Theorem issue_then_revoke_restores_keys (env : Env) (accesskey : AccessKey)
  (network : Network) (w w1 : World) (key : AccessKey) (stored : Network) :
  CreateAccessKey env accesskey network w = ((key, None), w1) ->
  ~ In (Name key) (map Name (AccessKeys network)) ->
  mongo.first_match (NetID network) (networks w1) = Some stored ->
  functions_GetParentNetwork env (networks w1) (NetID network) = (stored, None) ->
  mongo_fault env
    (call_FindOneAndUpdate (NetID network) [bson.accesskeys (AccessKeys network)])
    (networks w1) = None ->
  fst (handlers.DeleteKey env (Name key) (NetID network) w1) = None
  /\ (AccessKeys
        <$> mongo.first_match (NetID network)
              (networks (snd (handlers.DeleteKey env (Name key) (NetID network) w1))))
     = Some (AccessKeys network).
Proof.
  intros Hissue Hfresh Hstored Hget Hfault.
  pose proof (CreateAccessKey_stored _ _ _ _ _ _ Hissue) as Hkeys.
  rewrite Hstored in Hkeys. cbn [fmap option_fmap option_map] in Hkeys.
  injection Hkeys as Hkeys.
  assert (Hfilter : List.filter (fun k => negb (named (Name key) k)) (AccessKeys stored)
                    = AccessKeys network).
  { rewrite Hkeys, List.filter_app, filter_other_names by exact Hfresh.
    cbn [List.filter]. unfold named. rewrite String.eqb_refl. cbn [negb].
    apply app_nil_r. }
  unfold handlers.DeleteKey. go_run.
  rewrite Hget, DeleteKey_loop_filter, Hfilter. cbn [orb app].
  assert (Hfound : existsb (named (Name key)) (AccessKeys stored) = true).
  { rewrite Hkeys, existsb_app. cbn [existsb]. unfold named at 2.
    rewrite String.eqb_refl. rewrite orb_true_r. reflexivity. }
  rewrite Hfound. cbn [negb]. go_run. rewrite Hfault, Hstored. go_run.
  split; [reflexivity|].
  rewrite first_match_update_first by (intros d; apply set_NetID).
  rewrite Hstored. cbn [fmap option_fmap option_map]. rewrite set_accesskeys.
  reflexivity.
Qed.

Lemma issue_then_revoke_restores_keys_witness :
  (AccessKeys
     <$> mongo.first_match "net1"
           (networks
              (snd (handlers.DeleteKey (demo.env 0) "phone" "net1"
                      (snd (CreateAccessKey (demo.env 0) demo_handlers.key2
                              (with_AccessKeys [demo.key1] demo.net1)
                              (demo.world [with_AccessKeys [demo.key1] demo.net1])))))))
  = Some [demo.key1].
Proof.
  apply (issue_then_revoke_restores_keys (demo.env 0) demo_handlers.key2
           (with_AccessKeys [demo.key1] demo.net1)
           (demo.world [with_AccessKeys [demo.key1] demo.net1])
           (snd (CreateAccessKey (demo.env 0) demo_handlers.key2
                   (with_AccessKeys [demo.key1] demo.net1)
                   (demo.world [with_AccessKeys [demo.key1] demo.net1])))
           (mkAccessKey "phone" "t0k3n" "{}" 1)
           (with_AccessKeys [demo.key1; mkAccessKey "phone" "t0k3n" "{}" 1]
              demo.net1)).
  - reflexivity.
  - simpl. intros [[=]|[]].
  - reflexivity.
  - reflexivity.
  - reflexivity.
Defined.

(** X20: the key handlers write last. Every check of [createAccessKey]
    and of [deleteAccessKey] comes before their one update of the store, so
    whenever they answer an error, of type "internal" or "badrequest" only,
    either the store has not been asked to write and the collection is as it
    was, or the update was the last call made and the error, answered as
    "badrequest", is that call's own: a fault the driver reports, of which
    nothing more is said, or no document under the filter, in which case
    the collection is as it was. *)
Theorem key_handlers_write_last (env : Env) (user keyname netname : string)
  (body : AccessKey * option error) (w : World) :
  (forall errtype e,
     fst (handlers.createAccessKey env user netname body w) = ErrorResponse errtype e ->
     (errtype = "internal" \/ errtype = "badrequest")
     /\ ((existsb is_persistence
            (calls_since w (snd (handlers.createAccessKey env user netname body w)))
          = false
          /\ networks (snd (handlers.createAccessKey env user netname body w))
             = networks w)
         \/ exists netid update,
              last (calls_since w
                      (snd (handlers.createAccessKey env user netname body w)))
              = Some (call_FindOneAndUpdate netid update)
              /\ errtype = "badrequest"
              /\ (mongo_fault env (call_FindOneAndUpdate netid update) (networks w)
                  = Some e
                  \/ (mongo.first_match netid (networks w) = None
                      /\ e = mongo.ErrNoDocuments
                      /\ networks
                           (snd (handlers.createAccessKey env user netname body w))
                         = networks w))))
  /\ (forall errtype e,
        fst (handlers.deleteAccessKey env user keyname netname w)
        = ErrorResponse errtype e ->
        errtype = "badrequest"
        /\ ((existsb is_persistence
               (calls_since w
                  (snd (handlers.deleteAccessKey env user keyname netname w)))
             = false
             /\ networks (snd (handlers.deleteAccessKey env user keyname netname w))
                = networks w)
            \/ exists update,
                 last (calls_since w
                         (snd (handlers.deleteAccessKey env user keyname netname w)))
                 = Some (call_FindOneAndUpdate netname update)
                 /\ (mongo_fault env (call_FindOneAndUpdate netname update)
                       (networks w) = Some e
                     \/ (mongo.first_match netname (networks w) = None
                         /\ e = mongo.ErrNoDocuments
                         /\ networks
                              (snd (handlers.deleteAccessKey env user keyname
                                      netname w))
                            = networks w)))).
Proof.
  split; intros errtype e.
  - unfold handlers.createAccessKey, CreateAccessKey, GetKeys, errors_New.
    destruct body as [accesskey [decodeErr|]];
      go_cases; cbn [fst]; intros [= <- <-]; (split; [auto|]);
      first
        [ left; split; [go_calls; reflexivity|reflexivity]
        | right; eexists _, _; split; [go_calls; reflexivity|];
          split; [reflexivity|];
          first [left; assumption | right; repeat split; assumption] ].
  - unfold handlers.deleteAccessKey, handlers.DeleteKey, errors_New.
    go_cases; cbn [fst]; intros [= <- <-]; (split; [auto|]);
      first
        [ left; split; [go_calls; reflexivity|reflexivity]
        | right; eexists; split; [go_calls; reflexivity|];
          first [left; assumption | right; repeat split; assumption] ].
Qed.

Lemma key_handlers_write_last_witness :
  existsb is_persistence
    (calls_since (demo.world [with_AccessKeys [demo.key1] demo.net1])
       (snd (handlers.createAccessKey (demo.env 0) "alice" "net1" (demo.key1, None)
               (demo.world [with_AccessKeys [demo.key1] demo.net1]))))
  = false
  /\ networks
       (snd (handlers.createAccessKey (demo.env 0) "alice" "net1" (demo.key1, None)
               (demo.world [with_AccessKeys [demo.key1] demo.net1])))
     = [with_AccessKeys [demo.key1] demo.net1].
Proof.
  destruct (key_handlers_write_last (demo.env 0) "alice" "laptop" "net1"
              (demo.key1, None) (demo.world [with_AccessKeys [demo.key1] demo.net1]))
    as [Hcreate _].
  destruct (Hcreate "badrequest" "Duplicate AccessKey Name")
    as [_ [Hbefore|(netid & update & Hlast & _)]].
  - reflexivity.
  - exact Hbefore.
  - vm_compute in Hlast. discriminate Hlast.
Defined.

(** ** Reading a network and alerting it *)

(** X21: [GetNetwork] never changes the collection; a network it returns
    without error is a stored document whose NetID is the name asked for,
    and with an error it returns the zero record. [GetKeys] answers the
    access keys of what [GetNetwork] answers, with the same error. *)
Theorem GetNetwork_returns_stored_document (env : Env) (name : string) (w : World) :
  networks (snd (handlers.GetNetwork env name w)) = networks w
  /\ (forall network,
        fst (handlers.GetNetwork env name w) = (network, None) ->
        NetID network = name /\ In network (networks w))
  /\ (forall network e,
        fst (handlers.GetNetwork env name w) = (network, Some e) ->
        network = Network_zero)
  /\ fst (GetKeys env name w)
     = (AccessKeys (fst (fst (handlers.GetNetwork env name w))),
        snd (fst (handlers.GetNetwork env name w))).
Proof.
  unfold handlers.GetNetwork, GetKeys. go_run.
  destruct (mongo_fault env (call_FindOne name) (networks w)) as [fault|]; go_run.
  - split; [reflexivity|]. split; [discriminate|].
    split; [intros network e [= <- _]; reflexivity|reflexivity].
  - destruct (mongo.first_match name (networks w)) as [doc|] eqn:Hdoc; go_run.
    + split; [reflexivity|]. split; [|split; [discriminate|reflexivity]].
      intros network [= <-]. split.
      * apply (first_match_NetID _ _ _ Hdoc).
      * unfold mongo.first_match in Hdoc. apply find_some in Hdoc. apply Hdoc.
    + split; [reflexivity|]. split; [discriminate|].
      split; [intros network e [= <- _]; reflexivity|reflexivity].
Qed.

Lemma GetNetwork_returns_stored_document_witness :
  NetID demo.net1 = "net1" /\ In demo.net1 (networks (demo.world [demo.comms; demo.net1])).
Proof.
  destruct (GetNetwork_returns_stored_document (demo.env 0) "net1"
              (demo.world [demo.comms; demo.net1])) as (_ & Hfound & _).
  apply Hfound. reflexivity.
Defined.

(** X22: [AlertNetwork] sets the two timestamps nodesLastModified and
    networkLastModified of the first stored document of the network to one
    and the same reading of the clock and changes nothing else; when the
    lookup of the network fails it returns that error without calling the
    store. *)
Theorem AlertNetwork_sets_both_timestamps (env : Env) (netid : string) (w : World)
  (network : Network) (err : option error) :
  functions_GetParentNetwork env (networks w) netid = (network, err) ->
  (forall e, err = Some e ->
     handlers.AlertNetwork env netid w
     = (Some e, mkWorld (networks w) (calls w ++ [call_GetParentNetwork netid])))
  /\ (forall doc,
        err = None ->
        mongo_fault env
          (call_FindOneAndUpdate netid
             [bson.nodeslastmodified (time_Now_Unix env);
              bson.networklastmodified (time_Now_Unix env)]) (networks w) = None ->
        mongo.first_match netid (networks w) = Some doc ->
        fst (handlers.AlertNetwork env netid w) = None
        /\ mongo.first_match netid (networks (snd (handlers.AlertNetwork env netid w)))
           = Some (mkNetwork (NetID doc) (AddressRange doc) (AddressRange6 doc)
                     (DisplayName doc) (DefaultListenPort doc) (DefaultPostUp doc)
                     (DefaultPostDown doc) (DefaultKeepalive doc)
                     (KeyUpdateTimeStamp doc) (DefaultSaveConfig doc)
                     (DefaultInterface doc) (time_Now_Unix env) (time_Now_Unix env)
                     (AllowManualSignUp doc) (DefaultCheckInInterval doc)
                     (LocalRange doc) (IsLocal doc) (IsDualStack doc) (NodeLimit doc)
                     (AccessKeys doc))).
Proof.
  intros Hget. split.
  - intros e ->. unfold handlers.AlertNetwork. go_run. rewrite Hget. reflexivity.
  - intros doc -> Hfault Hdoc. unfold handlers.AlertNetwork. go_run.
    rewrite Hget. go_run. rewrite Hfault, Hdoc. go_run.
    split; [reflexivity|].
    rewrite first_match_update_first by (intros d; apply set_NetID).
    rewrite Hdoc. destruct doc. reflexivity.
Qed.

Lemma AlertNetwork_sets_both_timestamps_witness :
  fst (handlers.AlertNetwork (demo.env 0) "net1" (demo.world [demo.net1])) = None
  /\ (NodesLastModified
        <$> mongo.first_match "net1"
              (networks
                 (snd (handlers.AlertNetwork (demo.env 0) "net1"
                         (demo.world [demo.net1])))))
     = Some 1700000000.
Proof.
  destruct (AlertNetwork_sets_both_timestamps (demo.env 0) "net1"
              (demo.world [demo.net1]) demo.net1 None eq_refl) as [_ Hset].
  destruct (Hset demo.net1) as [Hok Hstored].
  - reflexivity.
  - reflexivity.
  - reflexivity.
  - split; [exact Hok|]. rewrite Hstored. reflexivity.
Defined.

(** ** Package [database]: reads of stored keys, and writes *)

Lemma scan_rows_app (rows1 rows2 : list (string * string))
  (records : gmap string string) :
  database.scan_rows (rows1 ++ rows2) records
  = database.scan_rows rows2 (database.scan_rows rows1 records).
Proof.
  revert records. induction rows1 as [|[k v] rows1 IH]; intros records;
    [reflexivity|]. simpl. apply IH.
Qed.

(** X23: [FetchRecord] answers the value of the last row the cursor yields
    for the key: a later row for the same key overwrites an earlier one in
    the map that [FetchRecords] builds. *)
Theorem FetchRecord_last_row_wins (before after : list (string * string))
  (key value : string) :
  key ∉ after.*1 ->
  database.FetchRecord (before ++ (key, value) :: after, None) key = (value, None).
Proof.
  intros Hlast. unfold database.FetchRecord, database.FetchRecords, database.map_index.
  rewrite scan_rows_app. cbn [database.scan_rows].
  rewrite scan_rows_lookup_absent by exact Hlast.
  rewrite lookup_insert_eq. reflexivity.
Qed.

Lemma FetchRecord_last_row_wins_witness :
  database.FetchRecord
    ([("net1", "old")] ++ ("net1", "new") :: [("net2", "{}")], None) "net1"
  = ("new", None).
Proof.
  apply (FetchRecord_last_row_wins [("net1", "old")] [("net2", "{}")] "net1" "new").
  simpl. rewrite list_elem_of_singleton. discriminate.
Defined.

(** X24: once the connection is open, [InitializeDatabase] returns nil
    whatever the connection answers to the statements: it sends the six
    CREATE TABLE statements, for the tables networks, nodes, users, dns,
    extclients and intclients in this order, and drops their errors. When
    opening fails it returns that error and sends nothing. *)
Theorem InitializeDatabase_ignores_create_errors (conn : database_writes.Connection)
  (written : list string) :
  database_writes.InitializeDatabase (conn, None) written
  = (None,
     written
     ++ map (fun tableName =>
               String.append "CREATE TABLE IF NOT EXISTS "
                 (String.append tableName
                    " (key TEXT NOT NULL UNIQUE PRIMARY KEY, value TEXT)"))
          ["networks"; "nodes"; "users"; "dns"; "extclients"; "intclients"])
  /\ forall e, database_writes.InitializeDatabase (conn, Some e) written
               = (Some e, written).
Proof.
  split; [|reflexivity].
  unfold database_writes.InitializeDatabase, database_writes.createTables,
    database_writes.createTable, database_writes.WriteOne.
  cbv beta iota zeta. rewrite <- !app_assoc. reflexivity.
Qed.

(** X25: [DeleteAllRecords] returns nil exactly when the connection accepts
    both its DELETE statement and the CREATE TABLE statement that follows;
    when the DELETE statement is refused, that error is returned and the
    CREATE TABLE statement is not sent. *)
Theorem DeleteAllRecords_two_statements (conn : database_writes.Connection)
  (tableName : string) (written : list string) :
  let delete := String.append "DELETE TABLE " tableName in
  let create :=
    String.append "CREATE TABLE IF NOT EXISTS "
      (String.append tableName
         " (key TEXT NOT NULL UNIQUE PRIMARY KEY, value TEXT)") in
  (fst (database_writes.DeleteAllRecords conn tableName written) = None
   <-> conn written delete = None /\ conn (written ++ [delete]) create = None)
  /\ (forall e, conn written delete = Some e ->
      database_writes.DeleteAllRecords conn tableName written
      = (Some e, written ++ [delete]))
  /\ (conn written delete = None ->
      snd (database_writes.DeleteAllRecords conn tableName written)
      = written ++ [delete; create]).
Proof.
  intros delete create.
  unfold database_writes.DeleteAllRecords, database_writes.createTable,
    database_writes.WriteOne.
  fold delete. fold create.
  destruct (conn written delete) as [e|] eqn:Hdelete; cbn [fst snd].
  - split; [split; [discriminate|intros [[=] _]]|].
    split; [intros e' [= <-]; reflexivity|discriminate].
  - split; [split; [intros H; split; [reflexivity|exact H]|intros [_ H]; exact H]|].
    split; [discriminate|]. intros _. rewrite <- app_assoc. reflexivity.
Qed.

Lemma DeleteAllRecords_two_statements_witness :
  database_writes.DeleteAllRecords demo_handlers.refusing "networks" []
  = (Some "refused", [] ++ ["DELETE TABLE networks"]).
Proof.
  destruct (DeleteAllRecords_two_statements demo_handlers.refusing "networks" [])
    as (_ & Hrefused & _).
  apply Hrefused. reflexivity.
Defined.

Lemma String_append_assoc (a b c : string) :
  String.append (String.append a b) c = String.append a (String.append b c).
Proof.
  induction a as [|ch a IH]; [reflexivity|].
  change (String ch (String.append (String.append a b) c)
          = String ch (String.append a (String.append b c))).
  rewrite IH. reflexivity.
Qed.

(** X26: [Insert] splices the key and the value into its statement between
    quotes as they are, so the statement does not determine them: a key that
    ends in a quoted separator followed by text, with a value, gives the very
    statement of the shorter key with that text moved into the value. *)
Theorem Insert_statement_not_escaped (conn : database_writes.Connection)
  (key text value tableName : string) (written : list string) :
  database_writes.Insert conn
    (String.append key (String.append "', '" text)) value tableName written
  = database_writes.Insert conn
      key (String.append text (String.append "', '" value)) tableName written.
Proof.
  unfold database_writes.Insert, database_writes.WriteOne.
  assert (Hsame :
            String.append (String.append key (String.append "', '" text))
              (String.append "', '" (String.append value "')"))
            = String.append key
                (String.append "', '"
                   (String.append
                      (String.append text (String.append "', '" value)) "')"))).
  { rewrite !String_append_assoc. reflexivity. }
  rewrite Hsame. reflexivity.
Qed.

(** ** The signup token *)

(** X27: [getSignupToken] answers the same for every network name and
    every state of the collection: the name is only written to the log. It
    reads the server and WireGuard configuration, never the store, and the
    token it answers has an access string but no name, no secret and a use
    count of zero. *)
Theorem getSignupToken_same_for_every_network (env : Env) (user netID : string)
  (w : World) :
  (forall netID' w',
     fst (handlers.getSignupToken env user netID w)
     = fst (handlers.getSignupToken env user netID' w'))
  /\ networks (snd (handlers.getSignupToken env user netID w)) = networks w
  /\ (forall c,
        In c (calls_since w (snd (handlers.getSignupToken env user netID w))) ->
        c = call_GetServerConfig \/ c = call_GetWGConfig
        \/ c = call_PrintUserLog user (String.append "got signup token " netID) 2)
  /\ (forall token,
        fst (handlers.getSignupToken env user netID w) = StatusOK token ->
        Name token = "" /\ Value token = "" /\ Uses token = 0).
Proof.
  unfold handlers.getSignupToken, handlers.GetSignupToken. go_run.
  destruct (json_Marshal env _) as [tokenjson [e|]]; go_run.
  - split; [reflexivity|]. split; [reflexivity|]. split.
    + go_calls. intros c [<-|[<-|[]]]; auto.
    + discriminate.
  - split; [reflexivity|]. split; [reflexivity|]. split.
    + go_calls. intros c [<-|[<-|[<-|[]]]]; auto.
    + intros token [= <-]. repeat split.
Qed.

Lemma getSignupToken_same_for_every_network_witness :
  Name (mkAccessKey "" "" "{}" 0) = ""
  /\ Value (mkAccessKey "" "" "{}" 0) = ""
  /\ Uses (mkAccessKey "" "" "{}" 0) = 0.
Proof.
  destruct (getSignupToken_same_for_every_network (demo.env 0) "alice" "net1"
              (demo.world [demo.net1])) as (_ & _ & _ & Htoken).
  apply Htoken. reflexivity.
Defined.
